(** * A model of the browser-automation HTTP wrapper (src/apiwrapper.py)

    The service is a Flask application with four routes, one module-level
    dictionary [results_store] and one helper, [run_browser_task], that runs
    on a background thread.  The handlers are embedded as computations in a
    state-and-exception monad over a [world] that holds the dictionary, the
    last reading of the wall clock, the threads that were started and have
    not finished yet, and two logs (the agents constructed so far, the
    assignments made to [results_store] so far) that only exist to state
    properties.

    What lies outside the repository is a parameter: the automation agent
    (browser_use.Agent), the texts that [repr] and [json.dumps] produce, the
    value or exception that Flask's [request.get_json()] yields, and the
    readings of [time.time()]. *)

From Stdlib Require Import QArith Qround Ascii.
From stdpp Require Import gmap strings list pretty.

Set Warnings "-register-all".

Local Open Scope string_scope.
Local Open Scope Z_scope.
Local Open Scope list_scope.

(** ** Python values *)

(** The values [request.get_json()] can return and the handlers build:
    [None], booleans, integers, floats, strings, lists and dictionaries.
    A float is a double, kept as the rational it denotes (no NaN, no
    infinity).  A dictionary is an association list in insertion order, keyed
    by strings as JSON objects are; a lookup takes the first binding. *)
Inductive pyval : Type :=
  | PNone
  | PBool (b : bool)
  | PInt (n : Z)
  | PFloat (q : Q)
  | PStr (s : string)
  | PList (items : list pyval)
  | PDict (fields : list (string * pyval)).

(** [type(v).__name__] *)
Definition py_type_name (v : pyval) : string :=
  match v with
  | PNone => "NoneType"
  | PBool _ => "bool"
  | PInt _ => "int"
  | PFloat _ => "float"
  | PStr _ => "str"
  | PList _ => "list"
  | PDict _ => "dict"
  end.

(** [bool(v)], the test behind [not data] and [if is_async]. *)
Definition py_truthy (v : pyval) : bool :=
  match v with
  | PNone => false
  | PBool b => b
  | PInt n => negb (n =? 0)
  | PFloat q => negb (Qnum q =? 0)
  | PStr s => negb (String.eqb s EmptyString)
  | PList items => match items with [] => false | _ :: _ => true end
  | PDict fields => match fields with [] => false | _ :: _ => true end
  end.

Fixpoint dict_lookup (k : string) (fields : list (string * pyval)) : option pyval :=
  match fields with
  | [] => None
  | (k', v) :: rest => if String.eqb k k' then Some v else dict_lookup k rest
  end.

(** [needle in haystack] on two strings. *)
Fixpoint is_substring (needle haystack : string) : bool :=
  String.prefix needle haystack ||
  match haystack with
  | EmptyString => false
  | String _ rest => is_substring needle rest
  end.

Definition is_str (s : string) (v : pyval) : bool :=
  match v with
  | PStr s' => String.eqb s s'
  | _ => false
  end.

(** ** Exceptions and the handler monad *)

(** An exception instance: its class name and [str(e)]. *)
Record exn : Type := Exn { exn_class : string; exn_text : string }.

(** How a computation ends: with a value, with an instance of [Exception],
    or with an exception that derives from [BaseException] only
    ([asyncio.CancelledError], [SystemExit], [KeyboardInterrupt],
    [GeneratorExit]), which [except Exception] does not catch. *)
Inductive outcome (A : Type) : Type :=
  | Ok (a : A)
  | Raise (e : exn)
  | RaiseBase (e : exn).
Arguments Ok {A} a.
Arguments Raise {A} e.
Arguments RaiseBase {A} e.

(** The keyword arguments of one [Agent(...)] construction. *)
Record agent_call : Type := AgentCall {
  task : pyval;
  llm : pyval;
  use_vision : bool;
  save_conversation_path : option string
}.

(** A thread started on [run_browser_task] that has not finished yet.
    [job_started_at] is the clock reading from which the task id was made;
    the program does not keep it, the model does, to compare it with the
    timestamp written at the end.  [job_running] tells whether the thread has
    constructed its [Agent] and is inside [agent.run()]. *)
Record job : Type := Job {
  job_task_id : string;
  job_prompt : pyval;
  job_model : pyval;
  job_started_at : Q;
  job_running : bool
}.

(** The state of the serving process.  [now] is the double that
    [time.time()] returns at this moment, kept as the rational it denotes. *)
Record world : Type := World {
  results_store : gmap string pyval;
  now : Q;
  threads : list job;
  agent_log : list agent_call;
  store_writes : list (string * pyval)
}.

Definition M (A : Type) : Type := world -> outcome A * world.

Definition ret {A} (a : A) : M A := fun w => (Ok a, w).

Definition raise {A} (e : exn) : M A := fun w => (Raise e, w).

Definition bind {A B} (m : M A) (k : A -> M B) : M B :=
  fun w =>
    match m w with
    | (Ok a, w') => k a w'
    | (Raise e, w') => (Raise e, w')
    | (RaiseBase e, w') => (RaiseBase e, w')
    end.

(** [try: body except Exception as e: handler(e)]; what does not derive
    from [Exception] passes through. *)
Definition try_except {A} (body : M A) (handler : exn -> M A) : M A :=
  fun w =>
    match body w with
    | (Ok a, w') => (Ok a, w')
    | (Raise e, w') => handler e w'
    | (RaiseBase e, w') => (RaiseBase e, w')
    end.

Definition lift {A} (o : outcome A) : M A := fun w => (o, w).

Notation "x <- m ;; k" := (bind m (fun x => k))
  (at level 100, m at next level, right associativity).
Notation "m ;;; k" := (bind m (fun _ => k))
  (at level 100, right associativity).

(** ** Operations on Python values that can raise *)

(** [k in v] for a string [k]. *)
Definition py_contains (k : string) (v : pyval) : outcome bool :=
  match v with
  | PDict fields => Ok (match dict_lookup k fields with Some _ => true | None => false end)
  | PList items => Ok (existsb (is_str k) items)
  | PStr s => Ok (is_substring k s)
  | _ => Raise (Exn "TypeError"
                  ("argument of type '" +:+ py_type_name v +:+ "' is not iterable"))
  end.

(** [v[k]] for a string [k]; the text of the [KeyError] is the [repr] of
    the key, written out for keys that need no escaping, as the literals the
    routes use. *)
Definition py_getitem (v : pyval) (k : string) : outcome pyval :=
  match v with
  | PDict fields =>
      match dict_lookup k fields with
      | Some x => Ok x
      | None => Raise (Exn "KeyError" ("'" +:+ k +:+ "'"))
      end
  | PList _ => Raise (Exn "TypeError" "list indices must be integers or slices, not str")
  | PStr _ => Raise (Exn "TypeError" "string indices must be integers, not 'str'")
  | _ => Raise (Exn "TypeError"
                  ("'" +:+ py_type_name v +:+ "' object is not subscriptable"))
  end.

(** [v.get(k, default)] *)
Definition py_get (v : pyval) (k : string) (dflt : pyval) : outcome pyval :=
  match v with
  | PDict fields => Ok (default dflt (dict_lookup k fields))
  | _ => Raise (Exn "AttributeError"
                  ("'" +:+ py_type_name v +:+ "' object has no attribute 'get'"))
  end.

(** ** Effects *)

(** [time.time()] *)
Definition time_time : M Q := fun w => (Ok (now w), w).

(** The integer nearest to [n / d], the even one of two that are equally
    near ([0 <= n], [0 < d]). *)
Definition round_half_even (n d : Z) : Z :=
  let q := n / d in
  match 2 * (n mod d) ?= d with
  | Lt => q
  | Gt => q + 1
  | Eq => if Z.even q then q else q + 1
  end.

(** [a / d] scaled by [2 ^ (- e)], as a fraction. *)
Definition scaled (a d e : Z) : Z * Z :=
  if 0 <=? e then (a, d * 2 ^ e) else (a * 2 ^ (- e), d).

(** The double nearest to a rational, ties to even: the rounding of every
    arithmetic operation on doubles.  The significand is cut to 53 bits; the
    exponent is not bounded, so this is the IEEE result wherever that neither
    overflows nor is subnormal, as for the product of a clock reading by
    1000. *)
Definition round_double (q : Q) : Q :=
  let n := Qnum q in
  let d := Z.pos (Qden q) in
  if n =? 0 then 0%Q
  else
    let a := Z.abs n in
    let e0 := Z.log2 a - Z.log2 d - 52 in
    let '(n0, d0) := scaled a d e0 in
    let e := if 2 ^ 52 <=? n0 / d0 then e0 else e0 - 1 in
    let '(n1, d1) := scaled a d e in
    let m := Z.sgn n * round_half_even n1 d1 in
    if 0 <=? e then inject_Z (m * 2 ^ e) else m # Z.to_pos (2 ^ (- e)).

(** [int(x)] for a float: truncation towards zero. *)
Definition py_int (x : Q) : Z := Z.quot (Qnum x) (Z.pos (Qden x)).

(** [int(time.time() * 1000)] for the reading [t]: the product is a
    multiplication of doubles. *)
Definition epoch_millis (t : Q) : Z := py_int (round_double (t * 1000)).

(** [results_store[k] = v] *)
Definition store_set (k : string) (v : pyval) : M unit := fun w =>
  (Ok tt,
   {| results_store := <[k := v]> (results_store w);
      now := now w;
      threads := threads w;
      agent_log := agent_log w;
      store_writes := store_writes w ++ [(k, v)] |}).

(** [Thread(target=run_browser_task, args=(task_id, prompt, model_name)).start()] *)
Definition thread_start (j : job) : M unit := fun w =>
  (Ok tt,
   {| results_store := results_store w;
      now := now w;
      threads := threads w ++ [j];
      agent_log := agent_log w;
      store_writes := store_writes w |}).

(** What an agent does with a task: [str(result)] of the value that
    [agent.run()] returns, or the exception that the construction, the run
    or the event loop raises. *)
Definition agent_behaviour : Type := agent_call -> outcome string.

(** The nested [async def] of each handler, driven to completion by
    [loop.run_until_complete], followed by [str(result)]. *)
Definition run_agent (agent : agent_behaviour) (c : agent_call) : M string := fun w =>
  (agent c,
   {| results_store := results_store w;
      now := now w;
      threads := threads w;
      agent_log := agent_log w ++ [c];
      store_writes := store_writes w |}).

(** ** Responses *)

(** What a view function returns: the value handed to [jsonify] and the
    status code (200 when the view returns the body alone). *)
Record response : Type := Response { body : pyval; status_code : Z }.

Definition error_body (msg : string) : pyval := PDict [("error", PStr msg)].

(** ** The background task *)

Definition completed_record (result : string) (t : Q) : pyval :=
  PDict [("status", PStr "completed");
         ("result", PStr result);
         ("timestamp", PFloat t)].

Definition error_record (e : exn) (t : Q) : pyval :=
  PDict [("status", PStr "error");
         ("error", PStr (exn_text e));
         ("timestamp", PFloat t)].

Definition run_browser_task (agent : agent_behaviour)
    (task_id : string) (prompt model_name : pyval) : M unit :=
  try_except
    (result <- run_agent agent
       {| task := prompt;
          llm := model_name;
          use_vision := true;
          save_conversation_path := Some ("./conversations/" +:+ task_id +:+ ".json") |};;
     t <- time_time;;
     store_set task_id (completed_record result t))
    (fun e =>
       t <- time_time;;
       store_set task_id (error_record e t)).

(** The two stretches of [run_browser_task] between which the rest of the
    process goes on: the thread constructs its agent, and, when
    [agent.run()] is over, it reads the clock and assigns the record. *)
Definition browser_task_call (task_id : string) (prompt model_name : pyval) : agent_call :=
  {| task := prompt;
     llm := model_name;
     use_vision := true;
     save_conversation_path := Some ("./conversations/" +:+ task_id +:+ ".json") |}.

Definition construct_agent (c : agent_call) : M unit := fun w =>
  (Ok tt,
   {| results_store := results_store w;
      now := now w;
      threads := threads w;
      agent_log := agent_log w ++ [c];
      store_writes := store_writes w |}).

Definition finish_browser_task (agent : agent_behaviour)
    (task_id : string) (prompt model_name : pyval) : M unit :=
  try_except
    (result <- lift (agent (browser_task_call task_id prompt model_name));;
     t <- time_time;;
     store_set task_id (completed_record result t))
    (fun e =>
       t <- time_time;;
       store_set task_id (error_record e t)).

(** ** The routes *)

Definition health_check : M response :=
  ret (Response (PDict [("status", PStr "healthy"); ("service", PStr "browser-use-api")]) 200).

Definition started_message : string :=
  "Task started. Use /browser/status/{task_id} to check progress".

Definition make_task_id (t : Q) : string := "task_" +:+ pretty (epoch_millis t).

Definition run_browser_automation (agent : agent_behaviour)
    (get_json : outcome pyval) : M response :=
  try_except
    (data <- lift get_json;;
     missing <- (if negb (py_truthy data) then ret true
                 else present <- lift (py_contains "prompt" data);; ret (negb present));;
     if (missing : bool) then
       ret (Response (error_body "Missing 'prompt' in request body") 400)
     else
       prompt <- lift (py_getitem data "prompt");;
       model_name <- lift (py_get data "model" (PStr "gpt-4o-mini"));;
       is_async <- lift (py_get data "async" (PBool false));;
       if py_truthy is_async then
         t <- time_time;;
         let task_id := make_task_id t in
         thread_start (Job task_id prompt model_name t false);;;
         ret (Response (PDict [("task_id", PStr task_id);
                               ("status", PStr "started");
                               ("message", PStr started_message)]) 200)
       else
         result <- run_agent agent
           {| task := prompt;
              llm := model_name;
              use_vision := true;
              save_conversation_path := None |};;
         ret (Response (PDict [("status", PStr "completed");
                               ("result", PStr result);
                               ("prompt", prompt)]) 200))
    (fun e => ret (Response (error_body (exn_text e)) 500)).

Definition get_task_status (task_id : string) : M response := fun w =>
  match results_store w !! task_id with
  | None => (Ok (Response (error_body "Task not found") 404), w)
  | Some record => (Ok (Response record 200), w)
  end.

(** A dictionary literal whose keys and values are strings, as [prompts] is. *)
Fixpoint str_dict_lookup (k : string) (d : list (string * string)) : option string :=
  match d with
  | [] => None
  | (k', v) :: rest => if String.eqb k k' then Some v else str_dict_lookup k rest
  end.

(** [key in d]: the key is hashed first, which lists and dictionaries
    refuse; a key that is not a string equals none of the string keys. *)
Definition str_dict_contains (key : pyval) (d : list (string * string)) : outcome bool :=
  match key with
  | PList _ | PDict _ =>
      Raise (Exn "TypeError" ("unhashable type: '" +:+ py_type_name key +:+ "'"))
  | PStr s => Ok (match str_dict_lookup s d with Some _ => true | None => false end)
  | _ => Ok false
  end.

Section Routes.

(** [repr(v)], and [json.dumps(v)] with its default arguments: the two
    texts CPython produces. *)
Variable py_repr : pyval -> string.
Variable json_dumps : pyval -> string.

(** [d[key]]; the text of a [KeyError] is the [repr] of the key. *)
Definition str_dict_getitem (d : list (string * string)) (key : pyval) : outcome string :=
  match key with
  | PList _ | PDict _ =>
      Raise (Exn "TypeError" ("unhashable type: '" +:+ py_type_name key +:+ "'"))
  | PStr s =>
      match str_dict_lookup s d with
      | Some v => Ok v
      | None => Raise (Exn "KeyError" (py_repr key))
      end
  | _ => Raise (Exn "KeyError" (py_repr key))
  end.

(** How an f-string renders [{v}]: a string as it is, anything else
    through its [repr]. *)
Definition py_str (v : pyval) : string :=
  match v with
  | PStr s => s
  | _ => py_repr v
  end.

Definition simple_browser_task (agent : agent_behaviour)
    (get_json : outcome pyval) : M response :=
  try_except
    (data <- lift get_json;;
     missing <- (if negb (py_truthy data) then ret true
                 else
                   has_action <- lift (py_contains "action" data);;
                   if negb has_action then ret true
                   else
                     has_target <- lift (py_contains "target" data);;
                     ret (negb has_target));;
     if (missing : bool) then
       ret (Response (error_body "Missing 'action' or 'target' in request body") 400)
     else
       action <- lift (py_getitem data "action");;
       target <- lift (py_getitem data "target");;
       extra_data <- lift (py_get data "data" (PDict []));;
       (* of the four entries of the literal, only the one for click can raise *)
       element <- lift (py_get extra_data "element" (PStr "submit button"));;
       let prompts :=
         [("search", "Search for '" +:+ py_str target +:+
                     "' on Google and return the top 3 results with titles and URLs");
          ("scrape", "Go to " +:+ py_str target +:+
                     " and extract the main content, headings, and key information from the page");
          ("click", "Go to " +:+ py_str target +:+
                    " and click on the element: " +:+ py_str element);
          ("fill_form", "Go to " +:+ py_str target +:+
                        " and fill out the form with this data: " +:+ json_dumps extra_data)] in
       known <- lift (str_dict_contains action prompts);;
       if negb known then
         ret (Response (error_body ("Unsupported action: " +:+ py_str action)) 400)
       else
         prompt <- lift (str_dict_getitem prompts action);;
         result <- run_agent agent
           {| task := PStr prompt;
              llm := PStr "gpt-4o-mini";
              use_vision := true;
              save_conversation_path := None |};;
         ret (Response (PDict [("status", PStr "completed");
                               ("action", action);
                               ("target", target);
                               ("result", PStr result)]) 200))
    (fun e => ret (Response (error_body (exn_text e)) 500)).

(** The Prompt Builder as the specification words it: the instruction
    for an action kind, a target and the auxiliary data mapping, and none
    for an action kind that is not supported.  It is what the route above
    is compared with. *)
Definition spec_prompt (action : string) (target : pyval)
    (data : list (string * pyval)) : option string :=
  if String.eqb action "search" then
    Some ("Search for '" +:+ py_str target +:+
          "' on Google and return the top 3 results with titles and URLs")
  else if String.eqb action "scrape" then
    Some ("Go to " +:+ py_str target +:+
          " and extract the main content, headings, and key information from the page")
  else if String.eqb action "click" then
    Some ("Go to " +:+ py_str target +:+ " and click on the element: " +:+
          match dict_lookup "element" data with
          | Some element => py_str element
          | None => "submit button"
          end)
  else if String.eqb action "fill_form" then
    Some ("Go to " +:+ py_str target +:+
          " and fill out the form with this data: " +:+ json_dumps (PDict data))
  else None.

(** ** The serving process *)

(** What can happen to the process: one of the four requests arrives, a
    started thread constructs its agent, a started thread comes to the end
    of [run_browser_task], or the wall clock shows another reading (a later
    one, or an earlier one when the clock is set back).  An event that runs
    an agent carries what that agent does. *)
Inductive event : Type :=
  | Health
  | Run (agent : agent_behaviour) (get_json : outcome pyval)
  | Status (task_id : string)
  | Simple (agent : agent_behaviour) (get_json : outcome pyval)
  | Construct (i : nat)
  | Finish (i : nat) (agent : agent_behaviour)
  | Tick (t : Q).

Definition set_clock (t : Q) (w : world) : world :=
  {| results_store := results_store w;
     now := t;
     threads := threads w;
     agent_log := agent_log w;
     store_writes := store_writes w |}.

Definition forget_thread (i : nat) (w : world) : world :=
  {| results_store := results_store w;
     now := now w;
     threads := delete i (threads w);
     agent_log := agent_log w;
     store_writes := store_writes w |}.

Definition mark_running (i : nat) (j : job) (w : world) : world :=
  {| results_store := results_store w;
     now := now w;
     threads := <[i := Job (job_task_id j) (job_prompt j) (job_model j)
                          (job_started_at j) true]> (threads w);
     agent_log := agent_log w;
     store_writes := store_writes w |}.

(** The [i]-th started thread constructs its agent, if it has not yet. *)
Definition construct_thread (i : nat) (w : world) : world :=
  match threads w !! i with
  | None => w
  | Some j =>
      if job_running j then w
      else
        snd (construct_agent
               (browser_task_call (job_task_id j) (job_prompt j) (job_model j))
               (mark_running i j w))
  end.

(** The [i]-th started thread comes to its end: [agent.run()] is over (the
    agent is constructed first if the thread had not got that far), the
    clock is read and the record assigned.  Between the construction and
    this point the thread touches nothing that is shared. *)
Definition finish_thread (i : nat) (agent : agent_behaviour) (w : world) : world :=
  let w1 := construct_thread i w in
  match threads w1 !! i with
  | None => w1
  | Some j =>
      snd (finish_browser_task agent (job_task_id j) (job_prompt j) (job_model j)
             (forget_thread i w1))
  end.

Definition step (w : world) (ev : event) : world :=
  match ev with
  | Health => snd (health_check w)
  | Run agent get_json => snd (run_browser_automation agent get_json w)
  | Status task_id => snd (get_task_status task_id w)
  | Simple agent get_json => snd (simple_browser_task agent get_json w)
  | Construct i => construct_thread i w
  | Finish i agent => finish_thread i agent w
  | Tick t => set_clock t w
  end.

Definition run_events (w : world) (evs : list event) : world := foldl step w evs.

End Routes.

(** The process as it starts: an empty [results_store], a clock reading. *)
Definition initial_world (t0 : Q) : world :=
  {| results_store := ∅; now := t0; threads := []; agent_log := []; store_writes := [] |}.

(** ** A runtime to compute with *)

(** [repr] and [json.dumps] as CPython prints them, for strings whose
    characters are code points below 256 and for floats whose shortest
    [repr] is their exact decimal expansion and has no exponent (magnitudes
    from 0.0001 up to, not including, 10^16).  The properties below hold for any two functions; these two
    are for running the routes on concrete requests. *)
Module CPython.

Definition hex_digit (n : N) : ascii :=
  match n with
  | 10 => "a" | 11 => "b" | 12 => "c" | 13 => "d" | 14 => "e" | 15 => "f"
  | _ => pretty_N_char n
  end%N%char.

Definition hex2 (n : N) : string :=
  String (hex_digit (n / 16)) (String (hex_digit (n mod 16)) EmptyString).

(** One character inside a JSON string, [ensure_ascii=True]. *)
Definition json_escape_char (c : ascii) : string :=
  let n := N_of_ascii c in
  if (n =? 34)%N then "\" +:+ String c EmptyString
  else if (n =? 92)%N then "\\"
  else if (n =? 10)%N then "\n"
  else if (n =? 13)%N then "\r"
  else if (n =? 9)%N then "\t"
  else if (n =? 8)%N then "\b"
  else if (n =? 12)%N then "\f"
  else if ((n <? 32) || (126 <? n))%N then "\u00" +:+ hex2 n
  else String c EmptyString.

Fixpoint json_escape (s : string) : string :=
  match s with
  | EmptyString => EmptyString
  | String c rest => json_escape_char c +:+ json_escape rest
  end.

Definition json_quote (s : string) : string :=
  String (ascii_of_N 34) (json_escape s) +:+ String (ascii_of_N 34) EmptyString.

Fixpoint fraction_digits (fuel : nat) (r d : Z) : string :=
  match fuel with
  | O => EmptyString
  | S fuel' =>
      if r =? 0 then EmptyString
      else pretty (r * 10 / d) +:+ fraction_digits fuel' (r * 10 mod d) d
  end.

Definition float_repr (q : Q) : string :=
  let n := Qnum q in
  let d := Z.pos (Qden q) in
  let a := Z.abs n in
  let frac := fraction_digits 20 (a mod d) d in
  (if n <? 0 then "-" else EmptyString) +:+ pretty (a / d) +:+ "." +:+
  (if String.eqb frac EmptyString then "0" else frac).

Fixpoint json_dumps (v : pyval) : string :=
  match v with
  | PNone => "null"
  | PBool true => "true"
  | PBool false => "false"
  | PInt n => pretty n
  | PFloat q => float_repr q
  | PStr s => json_quote s
  | PList items =>
      "[" +:+
      (fix go (l : list pyval) : string :=
         match l with
         | [] => EmptyString
         | x :: rest =>
             json_dumps x +:+ match rest with [] => EmptyString | _ :: _ => ", " +:+ go rest end
         end) items +:+ "]"
  | PDict fields =>
      "{" +:+
      (fix go (l : list (string * pyval)) : string :=
         match l with
         | [] => EmptyString
         | (k, x) :: rest =>
             json_quote k +:+ ": " +:+ json_dumps x +:+
             match rest with [] => EmptyString | _ :: _ => ", " +:+ go rest end
         end) fields +:+ "}"
  end.

Fixpoint has_char (n : N) (s : string) : bool :=
  match s with
  | EmptyString => false
  | String c rest => (N_of_ascii c =? n)%N || has_char n rest
  end.

(** One character inside the [repr] of a string quoted with [quote]. *)
Definition repr_escape_char (quote : N) (c : ascii) : string :=
  let n := N_of_ascii c in
  if ((n =? quote) || (n =? 92))%N then "\" +:+ String c EmptyString
  else if (n =? 10)%N then "\n"
  else if (n =? 13)%N then "\r"
  else if (n =? 9)%N then "\t"
  else if ((n <? 32) || ((126 <? n) && (n <? 161)) || (n =? 173))%N then "\x" +:+ hex2 n
  else String c EmptyString.

Fixpoint repr_escape (quote : N) (s : string) : string :=
  match s with
  | EmptyString => EmptyString
  | String c rest => repr_escape_char quote c +:+ repr_escape quote rest
  end.

Definition str_repr (s : string) : string :=
  let quote := if has_char 39 s && negb (has_char 34 s) then 34%N else 39%N in
  String (ascii_of_N quote) (repr_escape quote s) +:+ String (ascii_of_N quote) EmptyString.

Fixpoint py_repr (v : pyval) : string :=
  match v with
  | PNone => "None"
  | PBool true => "True"
  | PBool false => "False"
  | PInt n => pretty n
  | PFloat q => float_repr q
  | PStr s => str_repr s
  | PList items =>
      "[" +:+
      (fix go (l : list pyval) : string :=
         match l with
         | [] => EmptyString
         | x :: rest =>
             py_repr x +:+ match rest with [] => EmptyString | _ :: _ => ", " +:+ go rest end
         end) items +:+ "]"
  | PDict fields =>
      "{" +:+
      (fix go (l : list (string * pyval)) : string :=
         match l with
         | [] => EmptyString
         | (k, x) :: rest =>
             str_repr k +:+ ": " +:+ py_repr x +:+
             match rest with [] => EmptyString | _ :: _ => ", " +:+ go rest end
         end) fields +:+ "}"
  end.

End CPython.

(** An agent that answers every task with the same text, and one that
    always fails. *)
Definition agent_returning (text : string) : agent_behaviour := fun _ => Ok text.

Definition agent_failing (e : exn) : agent_behaviour := fun _ => Raise e.

(** An agent whose run is cancelled, or ends the interpreter. *)
Definition agent_escaping (e : exn) : agent_behaviour := fun _ => RaiseBase e.

(** ** Vocabulary of the properties *)

(** The keys of the [prompts] literal. *)
Definition supported_actions : list string := ["search"; "scrape"; "click"; "fill_form"].

Definition is_supported (action : pyval) : bool :=
  match action with
  | PStr s => bool_decide (s ∈ supported_actions)
  | _ => false
  end.

(** Values a dictionary accepts as a key to look for. *)
Definition is_hashable (v : pyval) : bool :=
  match v with
  | PList _ | PDict _ => false
  | _ => true
  end.

Definition is_dict (v : pyval) : bool :=
  match v with
  | PDict _ => true
  | _ => false
  end.



(** The clock is never set back over a sequence of events that starts at
    the reading [t]. *)
Fixpoint clock_never_back (t : Q) (evs : list event) : Prop :=
  match evs with
  | [] => True
  | Tick t' :: rest => (t <= t')%Q /\ clock_never_back t' rest
  | _ :: rest => clock_never_back t rest
  end.

(** The path [run_browser_task] hands to the agent for its conversation log. *)
Definition conversation_path (task_id : string) : string :=
  "./conversations/" +:+ task_id +:+ ".json".

(** The dictionary a sequence of assignments builds, starting empty. *)
Definition replay_writes (writes : list (string * pyval)) : gmap string pyval :=
  foldl (fun m kv => <[kv.1 := kv.2]> m) ∅ writes.

(** A finished record whose timestamp is a clock reading between two others. *)
Definition stamped_between (lo hi : Q) (r : pyval) : Prop :=
  exists text t,
    (lo <= t <= hi)%Q /\
    (r = PDict [("status", PStr "completed"); ("result", PStr text);
                ("timestamp", PFloat t)] \/
     r = PDict [("status", PStr "error"); ("error", PStr text);
                ("timestamp", PFloat t)]).

(** The record [run_browser_task] assigns for what the agent did, read at
    the clock reading [t], if it assigns one. *)
Definition record_of (result : outcome string) (t : Q) : option pyval :=
  match result with
  | Ok text => Some (completed_record text t)
  | Raise e => Some (error_record e t)
  | RaiseBase _ => None
  end.

(** The events in which a started thread comes to its end. *)
Definition is_finish (ev : event) : bool :=
  match ev with
  | Finish _ _ => true
  | _ => false
  end.

(** * Properties *)

(** ** Small facts about the value operations *)

Lemma dict_lookup_truthy k fields v :
  dict_lookup k fields = Some v -> py_truthy (PDict fields) = true.
Proof. destruct fields; [discriminate | reflexivity]. Qed.

Lemma py_contains_dict k fields v :
  dict_lookup k fields = Some v -> py_contains k (PDict fields) = Ok true.
Proof. intros H. simpl. rewrite H. reflexivity. Qed.

Lemma py_contains_dict_none k fields :
  dict_lookup k fields = None -> py_contains k (PDict fields) = Ok false.
Proof. intros H. simpl. rewrite H. reflexivity. Qed.

Lemma py_getitem_dict k fields v :
  dict_lookup k fields = Some v -> py_getitem (PDict fields) k = Ok v.
Proof. intros H. simpl. rewrite H. reflexivity. Qed.

Lemma make_task_id_inj t1 t2 :
  make_task_id t1 = make_task_id t2 -> epoch_millis t1 = epoch_millis t2.
Proof.
  unfold make_task_id. intros H.
  apply (inj pretty). apply (inj (String.app "task_")). exact H.
Qed.

(** Unfolds a route down to the monad's primitives. *)
Ltac run_route :=
  unfold run_browser_automation, run_browser_task, health_check, get_task_status,
    simple_browser_task, finish_browser_task, try_except, bind, lift, ret, time_time,
    thread_start, store_set, run_agent, construct_agent.

(** ** GET /health *)

(** C10: every GET /health, whatever the state of the process, answers 200
    with the payload status "healthy", service "browser-use-api", and leaves
    the state as it was. *)
Theorem health_check_always_healthy (w : world) :
  health_check w =
    (Ok (Response (PDict [("status", PStr "healthy");
                          ("service", PStr "browser-use-api")]) 200), w).
Proof. reflexivity. Qed.

(** ** GET /browser/status/<task_id> *)

(** C4: a status lookup for an id with no entry in [results_store] answers
    404 with error "Task not found"; for an id with an entry it answers 200
    with the stored record itself; the lookup changes nothing. *)
Theorem get_task_status_lookup (task_id : string) (w : world) :
  snd (get_task_status task_id w) = w /\
  (results_store w !! task_id = None ->
   fst (get_task_status task_id w) =
     Ok (Response (PDict [("error", PStr "Task not found")]) 404)) /\
  (forall record, results_store w !! task_id = Some record ->
   fst (get_task_status task_id w) = Ok (Response record 200)).
Proof.
  unfold get_task_status.
  destruct (results_store w !! task_id) as [r|]; simpl.
  - split; [reflexivity|]. split; [discriminate|]. intros r' [= <-]. reflexivity.
  - split; [reflexivity|]. split; [reflexivity|]. discriminate.
Qed.

Lemma get_task_status_lookup_witness :
  let w := snd (store_set "task_1" (completed_record "ok" 5) (initial_world 0)) in
  fst (get_task_status "task_2" w) =
    Ok (Response (PDict [("error", PStr "Task not found")]) 404) /\
  fst (get_task_status "task_1" w) = Ok (Response (completed_record "ok" 5) 200).
Proof.
  split.
  - apply (proj1 (proj2 (get_task_status_lookup "task_2" _))). vm_compute. reflexivity.
  - apply (proj2 (proj2 (get_task_status_lookup "task_1" _))). vm_compute. reflexivity.
Defined.

(** ** POST /browser/run *)

(** C6: a request to /browser/run whose parsed body is empty (None, an
    empty object or any other falsy value) or is an object with no 'prompt'
    key answers 400 with an error message; no agent is constructed, no
    thread is started and nothing is stored.  The object is arbitrary apart
    from the missing key, so the answer is the same whatever 'async' holds,
    and the same with the key removed or set to any value. *)
Theorem run_without_prompt_is_400 (agent : agent_behaviour) (body : pyval) (w : world) :
  py_truthy body = false \/
  (exists fields, body = PDict fields /\ dict_lookup "prompt" fields = None) ->
  run_browser_automation agent (Ok body) w =
    (Ok (Response (PDict [("error", PStr "Missing 'prompt' in request body")]) 400), w).
Proof.
  intros [Hfalsy | (fields & -> & Hnone)]; run_route.
  - rewrite Hfalsy. reflexivity.
  - rewrite (py_contains_dict_none _ _ Hnone).
    destruct fields; reflexivity.
Qed.

Lemma run_without_prompt_is_400_witness :
  let w := initial_world 1700000000 in
  Forall (fun body =>
            run_browser_automation (agent_returning "unused") (Ok body) w =
              (Ok (Response (PDict [("error", PStr "Missing 'prompt' in request body")]) 400), w))
    [PDict [("async", PBool true)];
     PDict [("async", PBool false); ("model", PStr "gpt-4o")];
     PDict [("model", PStr "gpt-4o")];
     PDict [];
     PNone].
Proof.
  intros w. repeat (apply Forall_cons_2; [apply run_without_prompt_is_400|]).
  - right. eexists. split; reflexivity.
  - right. eexists. split; reflexivity.
  - right. eexists. split; reflexivity.
  - left. reflexivity.
  - left. reflexivity.
  - apply Forall_nil_2.
Defined.

(** C5, as the code has it: a request to /browser/run with a prompt and
    with 'async' absent or false constructs one agent inline (task: the
    prompt, llm: the 'model' field or "gpt-4o-mini", vision on) and nothing
    else happens to the state; when the agent returns, the answer is 200 with
    status "completed", the stringified result and the prompt; when it raises
    an instance of [Exception], the answer is 500 with the text of the
    exception, and the answer is a 500 exactly then; an exception that does
    not derive from [Exception] leaves the route as it came. *)
Theorem run_inline_outcome (agent : agent_behaviour)
    (fields : list (string * pyval)) (prompt : pyval) (w : world) :
  dict_lookup "prompt" fields = Some prompt ->
  dict_lookup "async" fields = None \/ dict_lookup "async" fields = Some (PBool false) ->
  let call := {| task := prompt;
                 llm := default (PStr "gpt-4o-mini") (dict_lookup "model" fields);
                 use_vision := true;
                 save_conversation_path := None |} in
  let res := run_browser_automation agent (Ok (PDict fields)) w in
  agent_log (snd res) = agent_log w ++ [call] /\
  threads (snd res) = threads w /\
  results_store (snd res) = results_store w /\
  (forall text, agent call = Ok text ->
     fst res = Ok (Response (PDict [("status", PStr "completed");
                                    ("result", PStr text);
                                    ("prompt", prompt)]) 200)) /\
  (forall e, agent call = Raise e ->
     fst res = Ok (Response (PDict [("error", PStr (exn_text e))]) 500)) /\
  (forall e, agent call = RaiseBase e -> fst res = RaiseBase e) /\
  ((exists r, fst res = Ok r /\ status_code r = 500) <-> (exists e, agent call = Raise e)).
Proof.
  intros Hprompt Hasync call res. subst res. run_route.
  rewrite (dict_lookup_truthy _ _ _ Hprompt), (py_contains_dict _ _ _ Hprompt),
    (py_getitem_dict _ _ _ Hprompt).
  cbn [negb py_get].
  assert (py_truthy (default (PBool false) (dict_lookup "async" fields)) = false) as ->
    by (destruct Hasync as [-> | ->]; reflexivity).
  fold call. destruct (agent call) as [text|e|e]; cbn [fst snd agent_log threads results_store].
  - repeat split; try discriminate.
    + intros text' [= <-]. reflexivity.
    + intros (r & [= <-] & Hcode). discriminate.
    + intros (e & He). discriminate.
  - repeat split; try discriminate.
    + intros e' [= <-]. reflexivity.
    + intros _. eauto.
    + intros _. eexists. split; reflexivity.
  - repeat split; try discriminate.
    + intros e' [= <-]. reflexivity.
    + intros (r & Hr & _). discriminate.
    + intros (e' & He). discriminate.
Qed.

Lemma run_inline_outcome_witness :
  let fields := [("prompt", PStr "open example.com"); ("async", PBool false)] in
  let w := initial_world 1700000000 in
  fst (run_browser_automation (agent_returning "done") (Ok (PDict fields)) w) =
    Ok (Response (PDict [("status", PStr "completed");
                         ("result", PStr "done");
                         ("prompt", PStr "open example.com")]) 200) /\
  fst (run_browser_automation (agent_failing (Exn "RuntimeError" "no browser"))
         (Ok (PDict fields)) w) =
    Ok (Response (PDict [("error", PStr "no browser")]) 500).
Proof.
  intros fields w. split.
  - refine (proj1 (proj2 (proj2 (proj2
      (run_inline_outcome (agent_returning "done") fields (PStr "open example.com") w
         _ _)))) "done" _); [reflexivity | right; reflexivity | reflexivity].
  - refine (proj1 (proj2 (proj2 (proj2 (proj2
      (run_inline_outcome (agent_failing (Exn "RuntimeError" "no browser")) fields
         (PStr "open example.com") w _ _))))) (Exn "RuntimeError" "no browser") _);
      [reflexivity | right; reflexivity | reflexivity].
Defined.

(** C5 as it is worded fails when the failure of the agent is not an
    instance of [Exception]: a cancelled run raises
    [asyncio.CancelledError], which [except Exception] lets through, so the
    route gives no 500 answer although the agent has failed. *)
Lemma run_inline_cancelled_is_no_500 :
  let fields := [("prompt", PStr "open example.com")] in
  let w := initial_world 1700000000 in
  let res := run_browser_automation (agent_escaping (Exn "CancelledError" EmptyString))
               (Ok (PDict fields)) w in
  fst res = RaiseBase (Exn "CancelledError" EmptyString) /\
  ~ (exists r, fst res = Ok r /\ status_code r = 500).
Proof.
  split; [reflexivity|]. intros (r & Hr & _). discriminate Hr.
Qed.

(** The double product of a reading by 1000, cut to an integer, is the
    whole number of milliseconds in the reading or the next one. *)
Lemma round_half_even_bounds n d :
  0 <= n -> 0 < d -> n / d <= round_half_even n d <= n / d + 1.
Proof.
  intros Hn Hd. unfold round_half_even.
  destruct (2 * (n mod d) ?= d); [destruct (Z.even (n / d))| |]; lia.
Qed.

Lemma round_double_exponent a d :
  0 < a -> 0 < d -> a < 2 ^ 53 * d ->
  let e0 := Z.log2 a - Z.log2 d - 52 in
  (if 2 ^ 52 <=? fst (scaled a d e0) / snd (scaled a d e0) then e0 else e0 - 1) <= 0.
Proof.
  intros Ha Hd Hlt e0.
  assert (Z.log2 a <= Z.log2 d + 53) as Hlog.
  { assert (Z.log2 a < Z.log2 d + 54); [|lia].
    apply Z.log2_lt_pow2; [exact Ha|].
    pose proof (Z.log2_spec d Hd) as [_ Hd2].
    pose proof (Z.log2_nonneg d).
    replace (Z.log2 d + 54) with (53 + Z.succ (Z.log2 d)) by lia.
    rewrite Z.pow_add_r by lia. nia. }
  destruct (2 ^ 52 <=? fst (scaled a d e0) / snd (scaled a d e0)) eqn:Hc; [|lia].
  apply Z.leb_le in Hc.
  destruct (Z_le_gt_dec e0 0) as [|Hpos]; [assumption|]. exfalso.
  unfold scaled in Hc. rewrite (proj2 (Z.leb_le 0 e0)) in Hc by lia. cbn [fst snd] in Hc.
  assert (a / (d * 2 ^ e0) < 2 ^ 52); [|lia].
  apply Z.div_lt_upper_bound; [apply Z.mul_pos_pos; [lia | apply Z.pow_pos_nonneg; lia]|].
  assert (2 <= 2 ^ e0).
  { change 2 with (2 ^ 1) at 1. apply Z.pow_le_mono_r; lia. }
  change (2 ^ 53) with (2 ^ 52 * 2) in Hlt. nia.
Qed.

Lemma py_int_round_double x :
  0 <= Qnum x -> Qnum x < 2 ^ 53 * Z.pos (Qden x) ->
  Qfloor x <= py_int (round_double x) <= Qfloor x + 1.
Proof.
  destruct x as [n d]. cbn [Qnum Qden Qfloor]. intros Hn Hlt.
  unfold round_double. cbn [Qnum Qden].
  destruct (n =? 0) eqn:Hz.
  - apply Z.eqb_eq in Hz. subst n. rewrite Z.div_0_l by lia. change (py_int 0) with 0. lia.
  - apply Z.eqb_neq in Hz.
    assert (0 < n) as Hpos by lia.
    rewrite (Z.abs_eq n) by lia. rewrite (Z.sgn_pos n) by lia.
    pose proof (round_double_exponent n (Z.pos d) Hpos ltac:(lia) Hlt) as He.
    cbv zeta in He.
    set (e0 := Z.log2 n - Z.log2 (Z.pos d) - 52) in *.
    rewrite (surjective_pairing (scaled n (Z.pos d) e0)).
    set (e := if 2 ^ 52 <=? fst (scaled n (Z.pos d) e0) / snd (scaled n (Z.pos d) e0)
              then e0 else e0 - 1) in *.
    rewrite (surjective_pairing (scaled n (Z.pos d) e)).
    destruct (Z.eq_dec e 0) as [He0|He0].
    + rewrite He0. cbn [Z.leb Z.compare scaled fst snd]. change (2 ^ 0) with 1.
      rewrite !Z.mul_1_r, Z.mul_1_l. unfold py_int. cbn [inject_Z Qnum Qden].
      rewrite Z.quot_1_r. apply round_half_even_bounds; lia.
    + assert (e < 0) as Hneg by lia.
      assert ((0 <=? e) = false) as -> by (apply Z.leb_gt; lia).
      unfold scaled. assert ((0 <=? e) = false) as -> by (apply Z.leb_gt; lia).
      cbn [fst snd]. rewrite Z.mul_1_l.
      set (k := - e) in *.
      assert (0 < 2 ^ k) as Hk by (apply Z.pow_pos_nonneg; lia).
      unfold py_int. cbn [Qnum Qden]. rewrite Z2Pos.id by exact Hk.
      pose proof (round_half_even_bounds (n * 2 ^ k) (Z.pos d) ltac:(nia) ltac:(lia))
        as [Hlo Hhi].
      set (m := round_half_even (n * 2 ^ k) (Z.pos d)) in *.
      assert (n / Z.pos d * 2 ^ k <= n * 2 ^ k / Z.pos d) as Hq1.
      { apply Z.div_le_lower_bound; [lia|].
        pose proof (Z.mul_div_le n (Z.pos d) ltac:(lia)). nia. }
      assert (n * 2 ^ k / Z.pos d < (n / Z.pos d + 1) * 2 ^ k) as Hq2.
      { apply Z.div_lt_upper_bound; [lia|].
        pose proof (Z.mod_pos_bound n (Z.pos d) ltac:(lia)).
        pose proof (Z.div_mod n (Z.pos d) ltac:(lia)). nia. }
      assert (0 <= n * 2 ^ k / Z.pos d) as Hq0 by (apply Z.div_pos; nia).
      rewrite Z.quot_div_nonneg by lia.
      split.
      * apply Z.div_le_lower_bound; [lia|]. nia.
      * assert (m / 2 ^ k < n / Z.pos d + 2); [|lia].
        apply Z.div_lt_upper_bound; [lia|]. nia.
Qed.

(** C8, as the code has it: a request to /browser/run with a prompt and
    'async' true answers 200 with the task id, status "started" and the
    message, where the task id is "task_" followed by [int(t * 1000)] for the
    reading [t] of the clock, the product being a multiplication of doubles.
    The route constructs no agent: it starts one thread on
    [run_browser_task] with that id, the prompt and the model, and returns.
    Two readings give the same task id exactly when that integer is the same
    for both; for a reading that is not negative (and below 2^53
    milliseconds) the integer is the number of whole milliseconds in the
    reading, or the next one when the product rounds up to it. *)
Theorem run_async_dispatch (agent : agent_behaviour)
    (fields : list (string * pyval)) (prompt : pyval) (w : world) :
  dict_lookup "prompt" fields = Some prompt ->
  dict_lookup "async" fields = Some (PBool true) ->
  let task_id := "task_" +:+ pretty (py_int (round_double (now w * 1000))) in
  let model_name := default (PStr "gpt-4o-mini") (dict_lookup "model" fields) in
  let res := run_browser_automation agent (Ok (PDict fields)) w in
  fst res = Ok (Response (PDict [("task_id", PStr task_id);
                                 ("status", PStr "started");
                                 ("message", PStr "Task started. Use /browser/status/{task_id} to check progress")])
                  200) /\
  threads (snd res) = threads w ++ [Job task_id prompt model_name (now w) false] /\
  agent_log (snd res) = agent_log w /\
  results_store (snd res) = results_store w /\
  store_writes (snd res) = store_writes w /\
  (forall t1 t2,
     make_task_id t1 = make_task_id t2 <->
     py_int (round_double (t1 * 1000)) = py_int (round_double (t2 * 1000))) /\
  (forall t,
     (0 <= t)%Q -> (t * 1000 < 9007199254740992)%Q ->
     Qfloor (t * 1000) <= py_int (round_double (t * 1000)) <= Qfloor (t * 1000) + 1).
Proof.
  intros Hprompt Hasync task_id model_name res. subst res. run_route.
  rewrite (dict_lookup_truthy _ _ _ Hprompt), (py_contains_dict _ _ _ Hprompt),
    (py_getitem_dict _ _ _ Hprompt).
  cbn [negb py_get]. rewrite Hasync. cbn [default from_option id py_truthy fst snd
    threads agent_log results_store store_writes].
  split; [reflexivity|]. split; [reflexivity|]. split; [reflexivity|].
  split; [reflexivity|]. split; [reflexivity|]. split.
  - intros t1 t2. split.
    + apply make_task_id_inj.
    + intros H. unfold make_task_id, epoch_millis. rewrite H. reflexivity.
  - intros t Hnonneg Hbound. apply py_int_round_double.
    + unfold Qle in Hnonneg. cbn in Hnonneg |- *. lia.
    + unfold Qlt in Hbound. cbn in Hbound |- *. lia.
Qed.

Lemma run_async_dispatch_witness :
  let fields := [("prompt", PStr "open example.com"); ("async", PBool true)] in
  let w := initial_world (1782579200129453 # 1048576) in
  fst (run_browser_automation (agent_returning "done") (Ok (PDict fields)) w) =
    Ok (Response (PDict [("task_id", PStr "task_1700000000123");
                         ("status", PStr "started");
                         ("message", PStr "Task started. Use /browser/status/{task_id} to check progress")])
          200).
Proof.
  intros fields w.
  refine (proj1 (run_async_dispatch (agent_returning "done") fields
                   (PStr "open example.com") w _ _)); reflexivity.
Defined.

(** C8 as it is worded fails at readings whose product with 1000 rounds up
    to a whole number.  The double nearest to 1700000927.534 lies just below
    it, in millisecond 1700000927533, and so does the double nearest to
    1700000927.5335; a dispatch at the first is answered with the id of the
    next millisecond, a dispatch at the second with the id of their own: two
    dispatches within the same millisecond, two task ids. *)
Lemma same_millisecond_two_task_ids :
  let t1 := 3565160345179783 # 2097152 in
  let t2 := 7130320690357469 # 4194304 in
  let fields := [("prompt", PStr "open example.com"); ("async", PBool true)] in
  let task_id_at t :=
    match fst (run_browser_automation (agent_returning "unused") (Ok (PDict fields))
                 (initial_world t)) with
    | Ok r => dict_lookup "task_id" (match body r with PDict d => d | _ => [] end)
    | _ => None
    end in
  Qfloor (t1 * 1000) = 1700000927533 /\
  Qfloor (t2 * 1000) = 1700000927533 /\
  task_id_at t1 = Some (PStr "task_1700000927534") /\
  task_id_at t2 = Some (PStr "task_1700000927533").
Proof. vm_compute. repeat split. Qed.

(** ** POST /browser/simple *)

Lemma str_dict_lookup_None s (d : list (string * string)) :
  s ∉ d.*1 -> str_dict_lookup s d = None.
Proof.
  induction d as [|[k v] d IH]; [reflexivity|].
  intros Hnot. cbn [str_dict_lookup].
  destruct (String.eqb_spec s k) as [->|Hne].
  - exfalso. apply Hnot. left.
  - apply IH. intros Hin. apply Hnot. right. exact Hin.
Qed.

(** The route once the body is known to be an object that holds 'action'
    and 'target': the presence test passes and the two fields are read. *)
Lemma simple_fields_read py_repr json_dumps agent fields action target w :
  dict_lookup "action" fields = Some action ->
  dict_lookup "target" fields = Some target ->
  simple_browser_task py_repr json_dumps agent (Ok (PDict fields)) w =
    try_except
      (extra_data <- lift (py_get (PDict fields) "data" (PDict []));;
       element <- lift (py_get extra_data "element" (PStr "submit button"));;
       let prompts :=
         [("search", "Search for '" +:+ py_str py_repr target +:+
                     "' on Google and return the top 3 results with titles and URLs");
          ("scrape", "Go to " +:+ py_str py_repr target +:+
                     " and extract the main content, headings, and key information from the page");
          ("click", "Go to " +:+ py_str py_repr target +:+
                    " and click on the element: " +:+ py_str py_repr element);
          ("fill_form", "Go to " +:+ py_str py_repr target +:+
                        " and fill out the form with this data: " +:+ json_dumps extra_data)] in
       known <- lift (str_dict_contains action prompts);;
       if negb known then
         ret (Response (error_body ("Unsupported action: " +:+ py_str py_repr action)) 400)
       else
         prompt <- lift (str_dict_getitem py_repr prompts action);;
         result <- run_agent agent
           {| task := PStr prompt;
              llm := PStr "gpt-4o-mini";
              use_vision := true;
              save_conversation_path := None |};;
         ret (Response (PDict [("status", PStr "completed");
                               ("action", action);
                               ("target", target);
                               ("result", PStr result)]) 200))
      (fun e => ret (Response (error_body (exn_text e)) 500)) w.
Proof.
  intros Haction Htarget.
  unfold simple_browser_task, try_except, bind, lift, ret.
  rewrite (dict_lookup_truthy _ _ _ Haction), (py_contains_dict _ _ _ Haction),
    (py_contains_dict _ _ _ Htarget), (py_getitem_dict _ _ _ Haction),
    (py_getitem_dict _ _ _ Htarget).
  reflexivity.
Qed.

(** The [prompts] literal cannot be built when 'data' is not a mapping:
    [extra_data.get] raises and the handler of the route answers. *)
Lemma simple_data_without_get py_repr json_dumps agent fields action target extra w :
  dict_lookup "action" fields = Some action ->
  dict_lookup "target" fields = Some target ->
  dict_lookup "data" fields = Some extra ->
  is_dict extra = false ->
  simple_browser_task py_repr json_dumps agent (Ok (PDict fields)) w =
    (Ok (Response
           (error_body ("'" +:+ py_type_name extra +:+ "' object has no attribute 'get'"))
           500), w).
Proof.
  intros Haction Htarget Hdata Hnot.
  rewrite (simple_fields_read _ _ _ _ _ _ _ Haction Htarget).
  unfold try_except, bind, lift, ret. cbn [py_get]. rewrite Hdata.
  destruct extra; try discriminate; reflexivity.
Qed.

(** C9: a request to /browser/simple whose body holds 'action' and
    'target' and a 'data' field that is not a mapping answers 500, with the
    text of the AttributeError that [extra_data.get] raises while the
    [prompts] literal is built, whatever the action is (supported or not);
    no agent is constructed. *)
Theorem simple_non_mapping_data_is_500
    (py_repr json_dumps : pyval -> string) (agent : agent_behaviour)
    (fields : list (string * pyval)) (action target extra : pyval) (w : world) :
  dict_lookup "action" fields = Some action ->
  dict_lookup "target" fields = Some target ->
  dict_lookup "data" fields = Some extra ->
  is_dict extra = false ->
  simple_browser_task py_repr json_dumps agent (Ok (PDict fields)) w =
    (Ok (Response
           (PDict [("error",
                    PStr ("'" +:+ py_type_name extra +:+ "' object has no attribute 'get'"))])
           500), w).
Proof. apply simple_data_without_get. Qed.

Lemma simple_non_mapping_data_is_500_witness :
  let w := initial_world 1700000000 in
  simple_browser_task CPython.py_repr CPython.json_dumps (agent_returning "unused")
    (Ok (PDict [("action", PStr "search"); ("target", PStr "cats");
                ("data", PStr "oops")])) w =
    (Ok (Response (PDict [("error", PStr "'str' object has no attribute 'get'")]) 500), w).
Proof.
  intros w.
  apply (simple_non_mapping_data_is_500 CPython.py_repr CPython.json_dumps
           (agent_returning "unused") _ (PStr "search") (PStr "cats") (PStr "oops") w);
    reflexivity.
Defined.

(** C1: for a request to /browser/simple whose body holds a supported
    action and a target, the task handed to the agent is the instruction the
    specification gives for that action, target and data mapping (the empty
    mapping when 'data' is absent); the agent is constructed once, with
    "gpt-4o-mini" and vision on.  When 'data' is present and not a mapping
    no agent is constructed at all, so no other prompt is ever handed over. *)
Theorem simple_prompt_is_template
    (py_repr json_dumps : pyval -> string) (agent : agent_behaviour)
    (fields : list (string * pyval)) (action : string) (target : pyval) (w : world) :
  dict_lookup "action" fields = Some (PStr action) ->
  dict_lookup "target" fields = Some target ->
  action ∈ supported_actions ->
  let res := simple_browser_task py_repr json_dumps agent (Ok (PDict fields)) w in
  (forall data,
     dict_lookup "data" fields = None /\ data = [] \/
     dict_lookup "data" fields = Some (PDict data) ->
     exists prompt,
       spec_prompt py_repr json_dumps action target data = Some prompt /\
       agent_log (snd res) =
         agent_log w ++ [{| task := PStr prompt;
                            llm := PStr "gpt-4o-mini";
                            use_vision := true;
                            save_conversation_path := None |}]) /\
  (forall extra,
     dict_lookup "data" fields = Some extra -> is_dict extra = false ->
     agent_log (snd res) = agent_log w).
Proof.
  intros Haction Htarget Hsupported res. subst res. split.
  - intros data Hdata.
    rewrite (simple_fields_read _ _ _ _ _ _ _ Haction Htarget).
    unfold try_except, bind, lift, ret, run_agent. cbn [py_get].
    assert (default (PDict []) (dict_lookup "data" fields) = PDict data) as ->
      by (destruct Hdata as [[-> ->] | ->]; reflexivity).
    cbn [py_get]. unfold spec_prompt.
    destruct (dict_lookup "element" data) as [element|];
      cbn [default from_option id];
      unfold supported_actions in Hsupported;
      repeat (apply elem_of_cons in Hsupported as [-> | Hsupported]);
      try (by apply elem_of_nil in Hsupported);
      cbn; destruct (agent _); (eexists; split; reflexivity).
  - intros extra Hdata Hnot.
    rewrite (simple_data_without_get _ _ _ _ _ _ _ _ Haction Htarget Hdata Hnot).
    reflexivity.
Qed.

Lemma simple_prompt_is_template_witness :
  let w := initial_world 1700000000 in
  let sent body :=
    agent_log (snd (simple_browser_task CPython.py_repr CPython.json_dumps
                      (agent_returning "done") (Ok (PDict body)) w)) in
  sent [("action", PStr "search"); ("target", PStr "cats")] =
    [{| task := PStr "Search for 'cats' on Google and return the top 3 results with titles and URLs";
        llm := PStr "gpt-4o-mini"; use_vision := true; save_conversation_path := None |}] /\
  sent [("action", PStr "click"); ("target", PStr "http://x")] =
    [{| task := PStr "Go to http://x and click on the element: submit button";
        llm := PStr "gpt-4o-mini"; use_vision := true; save_conversation_path := None |}] /\
  sent [("action", PStr "fill_form"); ("target", PStr "http://x");
        ("data", PDict [("field", PStr "value")])] =
    [{| task := PStr ("Go to http://x and fill out the form with this data: " +:+
                      CPython.json_dumps (PDict [("field", PStr "value")]));
        llm := PStr "gpt-4o-mini"; use_vision := true; save_conversation_path := None |}].
Proof.
  intros w sent. subst sent. cbv beta.
  assert (forall a, bool_decide (a ∈ supported_actions) = true -> a ∈ supported_actions)
    as Hin by (intros a; apply bool_decide_eq_true_1).
  split; [|split].
  - destruct (proj1 (simple_prompt_is_template CPython.py_repr CPython.json_dumps
        (agent_returning "done") [("action", PStr "search"); ("target", PStr "cats")]
        "search" (PStr "cats") w eq_refl eq_refl (Hin "search" eq_refl))
        [] (or_introl (conj eq_refl eq_refl))) as (prompt & Hspec & ->).
    vm_compute in Hspec. injection Hspec as <-. reflexivity.
  - destruct (proj1 (simple_prompt_is_template CPython.py_repr CPython.json_dumps
        (agent_returning "done") [("action", PStr "click"); ("target", PStr "http://x")]
        "click" (PStr "http://x") w eq_refl eq_refl (Hin "click" eq_refl))
        [] (or_introl (conj eq_refl eq_refl))) as (prompt & Hspec & ->).
    vm_compute in Hspec. injection Hspec as <-. reflexivity.
  - destruct (proj1 (simple_prompt_is_template CPython.py_repr CPython.json_dumps
        (agent_returning "done")
        [("action", PStr "fill_form"); ("target", PStr "http://x");
         ("data", PDict [("field", PStr "value")])]
        "fill_form" (PStr "http://x") w eq_refl eq_refl (Hin "fill_form" eq_refl))
        [("field", PStr "value")] (or_intror eq_refl)) as (prompt & Hspec & ->).
    vm_compute in Hspec. injection Hspec as <-. vm_compute. reflexivity.
Defined.

(** The fourth test of the route: an action that is not a key of [prompts]
    (and can be looked for in it) is refused before any agent is built. *)
Lemma str_dict_contains_unsupported action (p1 p2 p3 p4 : string) :
  is_supported action = false ->
  is_hashable action = true ->
  str_dict_contains action
    [("search", p1); ("scrape", p2); ("click", p3); ("fill_form", p4)] = Ok false.
Proof.
  intros Hnot Hhash. destruct action as [| | | |s| |]; try reflexivity; try discriminate.
  cbn [is_supported] in Hnot. apply bool_decide_eq_false in Hnot.
  cbn [str_dict_contains]. rewrite str_dict_lookup_None; [reflexivity | exact Hnot].
Qed.

(** Whatever else the body holds, a request whose action is not supported
    leaves the state of the process alone. *)
Lemma simple_unsupported_world py_repr json_dumps agent fields action w :
  dict_lookup "action" fields = Some action ->
  is_supported action = false ->
  snd (simple_browser_task py_repr json_dumps agent (Ok (PDict fields)) w) = w.
Proof.
  intros Haction Hnot.
  destruct (dict_lookup "target" fields) as [target|] eqn:Htarget.
  - rewrite (simple_fields_read _ _ _ _ _ _ _ Haction Htarget).
    unfold try_except, bind, lift, ret. cbn [py_get].
    destruct (default (PDict []) (dict_lookup "data" fields)) as [| | | | | |extra];
      try reflexivity.
    cbn [py_get].
    destruct (is_hashable action) eqn:Hhash.
    + rewrite (str_dict_contains_unsupported _ _ _ _ _ Hnot Hhash). reflexivity.
    + destruct action; try discriminate; reflexivity.
  - unfold simple_browser_task, try_except, bind, lift, ret.
    rewrite (dict_lookup_truthy _ _ _ Haction), (py_contains_dict _ _ _ Haction),
      (py_contains_dict_none _ _ Htarget).
    reflexivity.
Qed.

(** C7, as the code has it: a request to /browser/simple whose action is
    present and not one of search, scrape, click, fill_form never constructs
    an agent, starts no thread and stores nothing; and when the body also
    holds a target, its 'data' is absent or a mapping, and the action is a
    string, a number, a boolean or null, the answer is 400 with the error
    "Unsupported action: " followed by the action. *)
Theorem simple_unsupported_action
    (py_repr json_dumps : pyval -> string) (agent : agent_behaviour)
    (fields : list (string * pyval)) (action : pyval) (w : world) :
  dict_lookup "action" fields = Some action ->
  is_supported action = false ->
  let res := simple_browser_task py_repr json_dumps agent (Ok (PDict fields)) w in
  snd res = w /\
  (forall target,
     dict_lookup "target" fields = Some target ->
     is_dict (default (PDict []) (dict_lookup "data" fields)) = true ->
     is_hashable action = true ->
     fst res =
       Ok (Response (PDict [("error", PStr ("Unsupported action: " +:+ py_str py_repr action))])
             400)).
Proof.
  intros Haction Hnot res. subst res. split.
  - apply (simple_unsupported_world _ _ _ _ _ _ Haction Hnot).
  - intros target Htarget Hdata Hhash.
    rewrite (simple_fields_read _ _ _ _ _ _ _ Haction Htarget).
    unfold try_except, bind, lift, ret. cbn [py_get].
    destruct (default (PDict []) (dict_lookup "data" fields)) as [| | | | | |extra];
      try discriminate.
    cbn [py_get].
    rewrite (str_dict_contains_unsupported _ _ _ _ _ Hnot Hhash). reflexivity.
Qed.

Lemma simple_unsupported_action_witness :
  let w := initial_world 1700000000 in
  simple_browser_task CPython.py_repr CPython.json_dumps (agent_returning "unused")
    (Ok (PDict [("action", PStr "bogus"); ("target", PStr "cats")])) w =
    (Ok (Response (PDict [("error", PStr "Unsupported action: bogus")]) 400), w).
Proof.
  intros w.
  pose proof (simple_unsupported_action CPython.py_repr CPython.json_dumps
                (agent_returning "unused")
                [("action", PStr "bogus"); ("target", PStr "cats")] (PStr "bogus") w
                eq_refl eq_refl) as [Hworld Hanswer].
  specialize (Hanswer (PStr "cats") eq_refl eq_refl eq_refl).
  apply injective_projections; [exact Hanswer | exact Hworld].
Defined.

(** C7 as it is worded fails on three requests with the action "bogus":
    without a target the 400 is the one for missing fields and does not
    name the action; with a 'data' that is not a mapping, and with an action
    that is a list, the answer is a 500. *)
Lemma simple_unsupported_action_other_answers :
  let w := initial_world 1700000000 in
  let answer body :=
    fst (simple_browser_task CPython.py_repr CPython.json_dumps (agent_returning "unused")
           (Ok (PDict body)) w) in
  answer [("action", PStr "bogus")] =
    Ok (Response (PDict [("error", PStr "Missing 'action' or 'target' in request body")]) 400) /\
  is_substring "bogus" "Missing 'action' or 'target' in request body" = false /\
  answer [("action", PStr "bogus"); ("target", PStr "cats"); ("data", PStr "oops")] =
    Ok (Response (PDict [("error", PStr "'str' object has no attribute 'get'")]) 500) /\
  answer [("action", PList [PStr "bogus"]); ("target", PStr "cats")] =
    Ok (Response (PDict [("error", PStr "unhashable type: 'list'")]) 500).
Proof. vm_compute. repeat split. Qed.

(** ** The background task and the registry *)


(** What the end of [run_browser_task] does: one record for an agent that
    returned or raised an [Exception], nothing for another exception, which
    it lets through. *)
Lemma finish_browser_task_effect agent task_id prompt model_name w :
  let result := agent (browser_task_call task_id prompt model_name) in
  finish_browser_task agent task_id prompt model_name w =
    (match result with
     | RaiseBase e => RaiseBase e
     | _ => Ok tt
     end,
     {| results_store :=
          match record_of result (now w) with
          | Some record => <[task_id := record]> (results_store w)
          | None => results_store w
          end;
        now := now w;
        threads := threads w;
        agent_log := agent_log w;
        store_writes :=
          store_writes w ++
          match record_of result (now w) with
          | Some record => [(task_id, record)]
          | None => []
          end |}).
Proof.
  cbv zeta. run_route. destruct (agent _); cbn [record_of]; try reflexivity.
  rewrite app_nil_r. destruct w; reflexivity.
Qed.




(** Neither route that runs an agent inline touches the registry, the
    clock or the threads already started; /browser/run may start one. *)
Lemma run_browser_automation_world agent get_json w :
  let w' := snd (run_browser_automation agent get_json w) in
  results_store w' = results_store w /\
  store_writes w' = store_writes w /\
  now w' = now w /\
  (threads w' = threads w \/
   exists prompt model_name,
     threads w' =
       threads w ++ [Job (make_task_id (now w)) prompt model_name (now w) false]).
Proof.
  run_route. destruct get_json as [body|e|e]; [|simpl; auto..].
  destruct (py_truthy body); cbn [negb]; [|simpl; auto].
  destruct (py_contains "prompt" body) as [[|]| |]; cbn [negb]; try (simpl; auto).
  destruct (py_getitem body "prompt"); try (simpl; auto).
  destruct (py_get body "model" _); try (simpl; auto).
  destruct (py_get body "async" _) as [flag| |]; try (simpl; auto).
  destruct (py_truthy flag).
  - simpl. repeat split. right. eauto.
  - destruct (agent _); simpl; auto.
Qed.

Lemma simple_browser_task_world py_repr json_dumps agent get_json w :
  let w' := snd (simple_browser_task py_repr json_dumps agent get_json w) in
  results_store w' = results_store w /\
  store_writes w' = store_writes w /\
  now w' = now w /\
  threads w' = threads w.
Proof.
  unfold simple_browser_task, try_except, bind, lift, ret, run_agent.
  destruct get_json as [body|e|e]; [|simpl; auto..].
  destruct (py_truthy body); cbn [negb]; [|simpl; auto].
  destruct (py_contains "action" body) as [[|]| |]; cbn [negb]; try (simpl; auto).
  destruct (py_contains "target" body) as [[|]| |]; cbn [negb]; try (simpl; auto).
  destruct (py_getitem body "action"); try (simpl; auto).
  destruct (py_getitem body "target"); try (simpl; auto).
  destruct (py_get body "data" _) as [extra| |]; try (simpl; auto).
  destruct (py_get extra "element" _); try (simpl; auto).
  destruct (str_dict_contains _ _) as [[|]| |]; cbn [negb]; try (simpl; auto).
  destruct (str_dict_getitem _ _ _); try (simpl; auto).
  destruct (agent _); simpl; auto.
Qed.

(** A thread that constructs its agent changes nothing but the log of
    agents and its own mark. *)
Lemma construct_thread_world i w :
  let w' := construct_thread i w in
  results_store w' = results_store w /\
  store_writes w' = store_writes w /\
  now w' = now w /\
  (w' = w \/
   exists j, threads w !! i = Some j /\ job_running j = false /\
     threads w' = <[i := Job (job_task_id j) (job_prompt j) (job_model j)
                             (job_started_at j) true]> (threads w) /\
     agent_log w' =
       agent_log w ++ [browser_task_call (job_task_id j) (job_prompt j) (job_model j)]).
Proof.
  unfold construct_thread. destruct (threads w !! i) as [j|] eqn:Hj; [|auto].
  destruct (job_running j) eqn:Hrun; [auto|].
  cbn. repeat split. right. exists j. auto.
Qed.

(** After its agent is constructed a thread is at the same place, with the
    same id, prompt, model and start. *)
Lemma construct_thread_lookup i w j :
  threads w !! i = Some j ->
  threads (construct_thread i w) !! i =
    Some (Job (job_task_id j) (job_prompt j) (job_model j) (job_started_at j) true).
Proof.
  intros Hj. unfold construct_thread. rewrite Hj.
  destruct (job_running j) eqn:Hrun.
  - rewrite Hj. destruct j; cbn in *. subst. reflexivity.
  - cbn. apply list_lookup_insert_eq. apply lookup_lt_Some in Hj. exact Hj.
Qed.

Lemma construct_thread_none i w :
  threads w !! i = None -> construct_thread i w = w.
Proof. intros Hj. unfold construct_thread. rewrite Hj. reflexivity. Qed.

Lemma delete_insert_same {A} (l : list A) i x : delete i (<[i := x]> l) = delete i l.
Proof.
  revert i. induction l as [|y l IH]; intros [|i]; cbn; try reflexivity.
  f_equal. apply IH.
Qed.

(** What the end of a thread does to the state. *)
Lemma finish_thread_world i agent w j :
  threads w !! i = Some j ->
  let call := browser_task_call (job_task_id j) (job_prompt j) (job_model j) in
  let w' := finish_thread i agent w in
  now w' = now w /\
  threads w' = delete i (threads w) /\
  agent_log w' = agent_log w ++ (if job_running j then [] else [call]) /\
  results_store w' =
    match record_of (agent call) (now w) with
    | Some record => <[job_task_id j := record]> (results_store w)
    | None => results_store w
    end /\
  store_writes w' =
    store_writes w ++
    match record_of (agent call) (now w) with
    | Some record => [(job_task_id j, record)]
    | None => []
    end.
Proof.
  intros Hj call w'. subst w'. unfold finish_thread.
  rewrite (construct_thread_lookup i w j Hj), finish_browser_task_effect.
  cbn [snd forget_thread now results_store threads agent_log store_writes
       job_task_id job_prompt job_model].
  destruct (construct_thread_world i w) as (Hstore & Hwrites & Hnow & Hcases).
  rewrite Hstore, Hwrites, Hnow. fold call.
  split; [reflexivity|]. split; [|split; [|split; reflexivity]].
  - destruct Hcases as [-> | (j' & Hj' & _ & -> & _)]; [reflexivity|].
    apply delete_insert_same.
  - unfold construct_thread. rewrite Hj. destruct (job_running j); cbn.
    + symmetry. apply app_nil_r.
    + reflexivity.
Qed.

Lemma finish_thread_none i agent w :
  threads w !! i = None -> finish_thread i agent w = w.
Proof.
  intros Hj. unfold finish_thread. rewrite (construct_thread_none i w Hj), Hj. reflexivity.
Qed.

(** ** One event at a time *)

(** Only a [Tick] changes the reading of the clock. *)
Lemma step_now py_repr json_dumps w ev :
  now (step py_repr json_dumps w ev) =
    match ev with
    | Tick t => t
    | _ => now w
    end.
Proof.
  destruct ev as [|agent get_json|task_id|agent get_json|i|i agent|t]; cbn [step].
  - reflexivity.
  - apply run_browser_automation_world.
  - unfold get_task_status. destruct (results_store w !! task_id); reflexivity.
  - apply simple_browser_task_world.
  - apply construct_thread_world.
  - destruct (threads w !! i) as [j|] eqn:Hj.
    + apply (finish_thread_world i agent w j Hj).
    + rewrite (finish_thread_none i agent w Hj). reflexivity.
  - reflexivity.
Qed.

(** One event either leaves the registry alone or is the end of a thread
    whose agent returned or raised an [Exception], which assigns one record
    stamped with the current reading of the clock. *)
Lemma step_shape py_repr json_dumps w ev :
  let w' := step py_repr json_dumps w ev in
  (results_store w' = results_store w /\ store_writes w' = store_writes w) \/
  (exists i agent j record,
     ev = Finish i agent /\
     threads w !! i = Some j /\
     record_of (agent (browser_task_call (job_task_id j) (job_prompt j) (job_model j)))
       (now w) = Some record /\
     results_store w' = <[job_task_id j := record]> (results_store w) /\
     store_writes w' = store_writes w ++ [(job_task_id j, record)]).
Proof.
  destruct ev as [|agent get_json|task_id|agent get_json|i|i agent|t]; cbn [step].
  - left. split; reflexivity.
  - left. destruct (run_browser_automation_world agent get_json w) as (H1 & H2 & _).
    split; assumption.
  - left. unfold get_task_status. destruct (results_store w !! task_id); split; reflexivity.
  - left. destruct (simple_browser_task_world py_repr json_dumps agent get_json w)
      as (H1 & H2 & _).
    split; assumption.
  - left. destruct (construct_thread_world i w) as (H1 & H2 & _). split; assumption.
  - destruct (threads w !! i) as [j|] eqn:Hj.
    + destruct (finish_thread_world i agent w j Hj) as (_ & _ & _ & Hstore & Hwrites).
      destruct (record_of _ (now w)) as [record|] eqn:Hrecord.
      * right. exists i, agent, j, record. auto.
      * left. rewrite app_nil_r in Hwrites. auto.
    + left. rewrite (finish_thread_none i agent w Hj). split; reflexivity.
  - left. split; reflexivity.
Qed.


Lemma run_events_snoc py_repr json_dumps w evs ev :
  run_events py_repr json_dumps w (evs ++ [ev]) =
    step py_repr json_dumps (run_events py_repr json_dumps w evs) ev.
Proof. unfold run_events. apply foldl_snoc. Qed.





(** ** The record of a background task *)




(** ** No placeholder in the registry *)




(** * Further properties of the routes *)

(** ** POST /browser/simple: the answers *)

(** X1: a request to /browser/simple with a supported action, a target and
    a 'data' that is absent or a mapping constructs one agent; when the agent
    returns, the answer is 200 with status "completed", the action and the
    target as they were sent and the stringified result; when it raises an
    instance of [Exception], the answer is 500 with the text of the
    exception; an exception that does not derive from [Exception] leaves the
    route as it came. *)
Theorem simple_answer_follows_agent
    (py_repr json_dumps : pyval -> string) (agent : agent_behaviour)
    (fields : list (string * pyval)) (action : string) (target : pyval) (w : world) :
  dict_lookup "action" fields = Some (PStr action) ->
  dict_lookup "target" fields = Some target ->
  action ∈ supported_actions ->
  is_dict (default (PDict []) (dict_lookup "data" fields)) = true ->
  let res := simple_browser_task py_repr json_dumps agent (Ok (PDict fields)) w in
  exists call,
    agent_log (snd res) = agent_log w ++ [call] /\
    (forall text, agent call = Ok text ->
       fst res = Ok (Response (PDict [("status", PStr "completed");
                                      ("action", PStr action);
                                      ("target", target);
                                      ("result", PStr text)]) 200)) /\
    (forall e, agent call = Raise e ->
       fst res = Ok (Response (PDict [("error", PStr (exn_text e))]) 500)) /\
    (forall e, agent call = RaiseBase e -> fst res = RaiseBase e).
Proof.
  intros Haction Htarget Hsupported Hdata res. subst res.
  rewrite (simple_fields_read _ _ _ _ _ _ _ Haction Htarget).
  unfold try_except, bind, lift, ret, run_agent. cbn [py_get].
  destruct (default (PDict []) (dict_lookup "data" fields)) as [| | | | | |data];
    try discriminate.
  cbn [py_get].
  unfold supported_actions in Hsupported.
  repeat (apply elem_of_cons in Hsupported as [-> | Hsupported]);
    try (by apply elem_of_nil in Hsupported);
    cbn;
    match goal with |- context [agent ?c] => exists c; destruct (agent c) end;
    (split; [reflexivity|]);
    (split; [|split]); intros ? Heq; try discriminate Heq;
    injection Heq as <-; reflexivity.
Qed.

Lemma simple_answer_follows_agent_witness :
  let w := initial_world 1700000000 in
  let fields := [("action", PStr "scrape"); ("target", PStr "http://x")] in
  fst (simple_browser_task CPython.py_repr CPython.json_dumps (agent_returning "done")
         (Ok (PDict fields)) w) =
    Ok (Response (PDict [("status", PStr "completed"); ("action", PStr "scrape");
                         ("target", PStr "http://x"); ("result", PStr "done")]) 200) /\
  fst (simple_browser_task CPython.py_repr CPython.json_dumps
         (agent_failing (Exn "RuntimeError" "no browser")) (Ok (PDict fields)) w) =
    Ok (Response (PDict [("error", PStr "no browser")]) 500).
Proof.
  intros w fields.
  assert ("scrape" ∈ supported_actions) as Hin
    by (apply list_elem_of_further, list_elem_of_here).
  split.
  - destruct (simple_answer_follows_agent CPython.py_repr CPython.json_dumps
                (agent_returning "done") fields "scrape" (PStr "http://x") w
                eq_refl eq_refl Hin eq_refl) as (call & _ & Hok & _ & _).
    apply (Hok "done"). reflexivity.
  - destruct (simple_answer_follows_agent CPython.py_repr CPython.json_dumps
                (agent_failing (Exn "RuntimeError" "no browser")) fields "scrape"
                (PStr "http://x") w eq_refl eq_refl Hin eq_refl)
      as (call & _ & _ & Hraise & _).
    apply (Hraise (Exn "RuntimeError" "no browser")). reflexivity.
Defined.

(** X2: a request to /browser/simple whose parsed body is falsy, or is an
    object that lacks 'action' or lacks 'target', answers 400 with the error
    "Missing 'action' or 'target' in request body", whatever the other
    fields hold (a supported action without a target included); no agent is
    constructed and the state is unchanged. *)
Theorem simple_missing_field_is_400
    (py_repr json_dumps : pyval -> string) (agent : agent_behaviour)
    (body : pyval) (w : world) :
  py_truthy body = false \/
  (exists fields, body = PDict fields /\
     (dict_lookup "action" fields = None \/ dict_lookup "target" fields = None)) ->
  simple_browser_task py_repr json_dumps agent (Ok body) w =
    (Ok (Response (PDict [("error", PStr "Missing 'action' or 'target' in request body")])
           400), w).
Proof.
  intros [Hfalsy | (fields & -> & Hmissing)];
    unfold simple_browser_task, try_except, bind, lift, ret.
  - rewrite Hfalsy. reflexivity.
  - destruct (py_truthy (PDict fields)); [|reflexivity]. cbn [negb].
    destruct (dict_lookup "action" fields) as [action|] eqn:Haction.
    + destruct Hmissing as [?|Htarget]; [discriminate|].
      rewrite (py_contains_dict _ _ _ Haction), (py_contains_dict_none _ _ Htarget).
      reflexivity.
    + rewrite (py_contains_dict_none _ _ Haction). reflexivity.
Qed.

Lemma simple_missing_field_is_400_witness :
  let w := initial_world 1700000000 in
  simple_browser_task CPython.py_repr CPython.json_dumps (agent_returning "unused")
    (Ok (PDict [("action", PStr "search"); ("data", PDict [])])) w =
    (Ok (Response (PDict [("error", PStr "Missing 'action' or 'target' in request body")])
           400), w).
Proof.
  intros w. apply simple_missing_field_is_400.
  right. eexists. split; [reflexivity|]. right. reflexivity.
Defined.

(** ** What a status code of a route tells *)

Lemma py_getitem_non_dict body k :
  is_dict body = false -> exists e, py_getitem body k = Raise e.
Proof. destruct body; try discriminate; intros _; eexists; reflexivity. Qed.

(** The operations on values raise instances of [Exception] only. *)
Lemma py_contains_no_base k v e : py_contains k v <> RaiseBase e.
Proof. destruct v; discriminate. Qed.

Lemma py_getitem_no_base v k e : py_getitem v k <> RaiseBase e.
Proof. destruct v; try discriminate. cbn. destruct (dict_lookup k fields); discriminate. Qed.

Lemma py_get_no_base v k dflt e : py_get v k dflt <> RaiseBase e.
Proof. destruct v; discriminate. Qed.

Lemma str_dict_contains_no_base key d e : str_dict_contains key d <> RaiseBase e.
Proof. destruct key; discriminate. Qed.

Lemma str_dict_getitem_no_base py_repr d key e :
  str_dict_getitem py_repr d key <> RaiseBase e.
Proof. destruct key; try discriminate. cbn. destruct (str_dict_lookup s d); discriminate. Qed.

(** Refutes a branch in which such an operation would have raised
    something else. *)
Ltac no_base :=
  match goal with
  | H : _ = RaiseBase _ |- _ =>
      exfalso; revert H;
      first [ apply py_contains_no_base | apply py_getitem_no_base | apply py_get_no_base
            | apply str_dict_contains_no_base | apply str_dict_getitem_no_base ]
  end.

(** Closes one branch of a route in the two theorems below. *)
Ltac route_branch :=
  simpl;
  repeat (split; [reflexivity|]);
  split; [|intros ? Hraise; discriminate Hraise];
  first [ left; eexists; split; [reflexivity|]; eauto 10
        | right; eexists; split; [reflexivity|]; eauto 10 ].

(** X3: what leaves /browser/run, and what each status code tells.  The
    route never lets an instance of [Exception] through; the only exceptions
    that leave it are those that do not derive from [Exception], raised by
    [request.get_json()] or by the one agent constructed inline, and then no
    thread was started.  When the route answers, a 200 means that a thread
    was started and no agent constructed, or that one agent was constructed
    inline and returned; a 400 means that nothing happened to the state at
    all; a 500 means that no thread was started and either nothing happened
    or the one agent constructed inline raised an [Exception].  The registry
    is never touched. *)
Theorem run_status_codes (agent : agent_behaviour) (get_json : outcome pyval) (w : world) :
  let res := run_browser_automation agent get_json w in
  results_store (snd res) = results_store w /\
  ((exists r, fst res = Ok r /\
      (status_code r = 200 /\
         ((exists j, threads (snd res) = threads w ++ [j] /\
                     agent_log (snd res) = agent_log w) \/
          (exists call text, agent_log (snd res) = agent_log w ++ [call] /\
                             agent call = Ok text /\
                             threads (snd res) = threads w)) \/
       status_code r = 400 /\ snd res = w \/
       status_code r = 500 /\ threads (snd res) = threads w /\
         (snd res = w \/
          exists call e, agent_log (snd res) = agent_log w ++ [call] /\
                         agent call = Raise e))) \/
   (exists e, fst res = RaiseBase e /\
      threads (snd res) = threads w /\
      (get_json = RaiseBase e /\ snd res = w \/
       exists call, agent_log (snd res) = agent_log w ++ [call] /\
                    agent call = RaiseBase e))) /\
  (forall e, fst res <> Raise e).
Proof.
  run_route. destruct get_json as [body|e|e]; [|route_branch..].
  destruct (py_truthy body); cbn [negb]; [|route_branch].
  destruct (py_contains "prompt" body) as [[|]| |] eqn:H1; cbn [negb];
    [|route_branch..|no_base].
  destruct (py_getitem body "prompt") eqn:H2; [|route_branch|no_base].
  destruct (py_get body "model" _) eqn:H3; [|route_branch|no_base].
  destruct (py_get body "async" _) as [flag| |] eqn:H4; [|route_branch|no_base].
  destruct (py_truthy flag); [route_branch|].
  match goal with |- context [agent ?c] => destruct (agent c) eqn:Hagent end;
    route_branch.
Qed.

(** X4: what leaves /browser/simple, and what each status code tells.  The
    route never starts a thread and never touches the registry; it never
    lets an instance of [Exception] through, and the only exceptions that
    leave it are those that do not derive from [Exception], raised by
    [request.get_json()] or by the one agent constructed.  When the route
    answers, a 200 means that one agent was constructed and returned, a 400
    that nothing happened to the state, a 500 that nothing happened or that
    the one agent constructed raised an [Exception]. *)
Theorem simple_status_codes
    (py_repr json_dumps : pyval -> string) (agent : agent_behaviour)
    (get_json : outcome pyval) (w : world) :
  let res := simple_browser_task py_repr json_dumps agent get_json w in
  results_store (snd res) = results_store w /\
  threads (snd res) = threads w /\
  ((exists r, fst res = Ok r /\
      (status_code r = 200 /\
         (exists call text, agent_log (snd res) = agent_log w ++ [call] /\
                            agent call = Ok text) \/
       status_code r = 400 /\ snd res = w \/
       status_code r = 500 /\
         (snd res = w \/
          exists call e, agent_log (snd res) = agent_log w ++ [call] /\
                         agent call = Raise e))) \/
   (exists e, fst res = RaiseBase e /\
      (get_json = RaiseBase e /\ snd res = w \/
       exists call, agent_log (snd res) = agent_log w ++ [call] /\
                    agent call = RaiseBase e))) /\
  (forall e, fst res <> Raise e).
Proof.
  unfold simple_browser_task, try_except, bind, lift, ret, run_agent.
  destruct get_json as [body|e|e]; [|route_branch..].
  destruct (py_truthy body); cbn [negb]; [|route_branch].
  destruct (py_contains "action" body) as [[|]| |] eqn:H1; cbn [negb];
    [|route_branch..|no_base].
  destruct (py_contains "target" body) as [[|]| |] eqn:H2; cbn [negb];
    [|route_branch..|no_base].
  destruct (py_getitem body "action") eqn:H3; [|route_branch|no_base].
  destruct (py_getitem body "target") eqn:H4; [|route_branch|no_base].
  destruct (py_get body "data" _) as [extra| |] eqn:H5; [|route_branch|no_base].
  destruct (py_get extra "element" _) eqn:H6; [|route_branch|no_base].
  destruct (str_dict_contains _ _) as [[|]| |] eqn:H7; cbn [negb];
    [|route_branch..|no_base].
  destruct (str_dict_getitem _ _ _) eqn:H8; [|route_branch|no_base].
  match goal with |- context [agent ?c] => destruct (agent c) eqn:Hagent end;
    route_branch.
Qed.

(** X5: a body Flask refuses, so that [request.get_json()] raises an
    instance of [Exception] (as its HTTP errors are), is answered by either
    route itself with 500 and the text of that exception,
    and a body that parses to something other than an object never makes
    either route run anything: the state is unchanged and the answer is a 400
    or a 500.  For /browser/run it is a 400 exactly when the body is falsy or
    is a string or a list that does not contain 'prompt'. *)
Theorem body_that_is_no_object
    (py_repr json_dumps : pyval -> string) (agent : agent_behaviour) (w : world) :
  (forall e,
     run_browser_automation agent (Raise e) w =
       (Ok (Response (PDict [("error", PStr (exn_text e))]) 500), w) /\
     simple_browser_task py_repr json_dumps agent (Raise e) w =
       (Ok (Response (PDict [("error", PStr (exn_text e))]) 500), w)) /\
  (forall body, is_dict body = false ->
     (exists r, run_browser_automation agent (Ok body) w = (Ok r, w) /\
        (status_code r = 400 \/ status_code r = 500) /\
        (status_code r = 400 <->
           py_truthy body = false \/ py_contains "prompt" body = Ok false)) /\
     (exists r, simple_browser_task py_repr json_dumps agent (Ok body) w = (Ok r, w) /\
        (status_code r = 400 \/ status_code r = 500))).
Proof.
  split; [intros e; split; reflexivity|].
  intros body Hbody. split.
  - run_route. destruct (py_truthy body) eqn:Htruthy; cbn [negb].
    + destruct (py_contains "prompt" body) as [[|]| |] eqn:Hin; cbn [negb]; [| | |no_base].
      * destruct (py_getitem_non_dict body "prompt" Hbody) as [e ->].
        eexists. split; [reflexivity|]. split; [right; reflexivity|].
        cbn [status_code]. split; [discriminate|]. intros [?|?]; discriminate.
      * eexists. split; [reflexivity|]. split; [left; reflexivity|].
        cbn [status_code]. split; [auto|reflexivity].
      * eexists. split; [reflexivity|]. split; [right; reflexivity|].
        cbn [status_code]. split; [discriminate|]. intros [?|?]; discriminate.
    + eexists. split; [reflexivity|]. split; [left; reflexivity|].
      cbn [status_code]. split; [auto|reflexivity].
  - unfold simple_browser_task, try_except, bind, lift, ret.
    destruct (py_truthy body); cbn [negb]; [|eauto].
    destruct (py_contains "action" body) as [[|]| |] eqn:H1; cbn [negb]; eauto; [|no_base].
    destruct (py_contains "target" body) as [[|]| |] eqn:H2; cbn [negb]; eauto; [|no_base].
    destruct (py_getitem_non_dict body "action" Hbody) as [e ->]. eauto.
Qed.

Lemma body_that_is_no_object_witness :
  let w := initial_world 1700000000 in
  let answer body := run_browser_automation (agent_returning "unused") (Ok body) w in
  (exists r, answer (PInt 5) = (Ok r, w) /\ status_code r = 500) /\
  (exists r, answer (PStr "my prompt") = (Ok r, w) /\ status_code r = 500) /\
  (exists r, answer (PList [PStr "a"]) = (Ok r, w) /\ status_code r = 400).
Proof.
  intros w answer. subst answer. cbv beta.
  pose proof (proj2 (body_that_is_no_object CPython.py_repr CPython.json_dumps
                       (agent_returning "unused") w)) as H.
  split; [|split].
  - destruct (proj1 (H (PInt 5) eq_refl)) as (r & Hr & [H4|H5] & Hiff).
    + apply Hiff in H4. destruct H4; discriminate.
    + exists r. split; assumption.
  - destruct (proj1 (H (PStr "my prompt") eq_refl)) as (r & Hr & [H4|H5] & Hiff).
    + apply Hiff in H4. vm_compute in H4. destruct H4; discriminate.
    + exists r. split; assumption.
  - destruct (proj1 (H (PList [PStr "a"]) eq_refl)) as (r & Hr & _ & Hiff).
    exists r. split; [exact Hr|]. apply Hiff. right. reflexivity.
Defined.

(** ** POST /browser/run: the async flag and the model *)

(** X6: /browser/run judges 'async' by its truth value, not by being the
    boolean true.  With a prompt present, any truthy value (true, a non-zero
    number, a non-empty string such as "false") starts a thread and answers
    "started" without constructing an agent; any falsy value (false, 0, null,
    an empty string, list or object) or an absent flag constructs the agent
    inline and starts no thread.  In both cases the model handed on is the
    'model' field, or "gpt-4o-mini" when it is absent. *)
Theorem run_async_flag_is_truthiness (agent : agent_behaviour)
    (fields : list (string * pyval)) (prompt : pyval) (w : world) :
  dict_lookup "prompt" fields = Some prompt ->
  let flag := default (PBool false) (dict_lookup "async" fields) in
  let model_name := default (PStr "gpt-4o-mini") (dict_lookup "model" fields) in
  let res := run_browser_automation agent (Ok (PDict fields)) w in
  (py_truthy flag = true ->
     fst res = Ok (Response (PDict [("task_id", PStr (make_task_id (now w)));
                                    ("status", PStr "started");
                                    ("message", PStr started_message)]) 200) /\
     threads (snd res) =
       threads w ++ [Job (make_task_id (now w)) prompt model_name (now w) false] /\
     agent_log (snd res) = agent_log w) /\
  (py_truthy flag = false ->
     threads (snd res) = threads w /\
     agent_log (snd res) =
       agent_log w ++ [{| task := prompt;
                          llm := model_name;
                          use_vision := true;
                          save_conversation_path := None |}]).
Proof.
  intros Hprompt flag model_name res. subst res. run_route.
  rewrite (dict_lookup_truthy _ _ _ Hprompt), (py_contains_dict _ _ _ Hprompt),
    (py_getitem_dict _ _ _ Hprompt).
  cbn [negb py_get]. fold flag model_name.
  destruct (py_truthy flag).
  - split; [intros _ | discriminate]. repeat split.
  - split; [discriminate | intros _].
    match goal with |- context [agent ?c] => destruct (agent c) end; split; reflexivity.
Qed.

Lemma run_async_flag_is_truthiness_witness :
  let w := initial_world (1782579200129453 # 1048576) in
  threads (snd (run_browser_automation (agent_returning "unused")
                  (Ok (PDict [("prompt", PStr "p"); ("async", PStr "false")])) w)) =
    [Job "task_1700000000123" (PStr "p") (PStr "gpt-4o-mini")
       (1782579200129453 # 1048576) false] /\
  threads (snd (run_browser_automation (agent_returning "unused")
                  (Ok (PDict [("prompt", PStr "p"); ("async", PInt 0);
                              ("model", PStr "gpt-4o")])) w)) = [].
Proof.
  intros w. split.
  - apply (proj1 (run_async_flag_is_truthiness (agent_returning "unused")
                    [("prompt", PStr "p"); ("async", PStr "false")] (PStr "p") w eq_refl)).
    reflexivity.
  - apply (proj2 (run_async_flag_is_truthiness (agent_returning "unused")
                    [("prompt", PStr "p"); ("async", PInt 0); ("model", PStr "gpt-4o")]
                    (PStr "p") w eq_refl)).
    reflexivity.
Defined.

(** ** The registry over the life of the process *)

Lemma replay_writes_snoc writes k r :
  replay_writes (writes ++ [(k, r)]) = <[k := r]> (replay_writes writes).
Proof. unfold replay_writes. rewrite foldl_snoc. reflexivity. Qed.

Lemma replay_writes_latest earlier later k r :
  k ∉ later.*1 -> replay_writes (earlier ++ (k, r) :: later) !! k = Some r.
Proof.
  induction later as [|[k' r'] later IH] using rev_ind; intros Hlater.
  - rewrite replay_writes_snoc. apply lookup_insert_eq.
  - rewrite fmap_app, not_elem_of_app in Hlater. destruct Hlater as [Hlater Hk'].
    change (earlier ++ (k, r) :: later ++ [(k', r')])
      with (earlier ++ ((k, r) :: later) ++ [(k', r')]).
    rewrite app_assoc, replay_writes_snoc, lookup_insert_ne; [apply IH, Hlater|].
    intros ->. apply Hk'. apply list_elem_of_here.
Qed.

Lemma registry_is_replay py_repr json_dumps evs w :
  results_store w = replay_writes (store_writes w) ->
  results_store (run_events py_repr json_dumps w evs) =
    replay_writes (store_writes (run_events py_repr json_dumps w evs)).
Proof.
  revert w. induction evs as [|ev evs IH]; intros w Hw; [exact Hw|].
  cbn [run_events foldl]. apply IH.
  destruct (step_shape py_repr json_dumps w ev)
    as [[Hstore Hwrites] | (i & agent & j & record & _ & _ & _ & Hstore & Hwrites)].
  - rewrite Hstore, Hwrites. exact Hw.
  - rewrite Hstore, Hwrites, replay_writes_snoc, Hw. reflexivity.
Qed.

(** X7: the registry keeps, for each task id, the record written last:
    in any state the process can reach, a status lookup for an id answers 200
    with the record of the most recent background task that finished under
    that id, earlier records under the same id being overwritten. *)
Theorem status_returns_latest_record
    (py_repr json_dumps : pyval -> string) (t0 : Q) (evs : list event)
    (task_id : string) (record : pyval) (earlier later : list (string * pyval)) :
  let w := run_events py_repr json_dumps (initial_world t0) evs in
  store_writes w = earlier ++ (task_id, record) :: later ->
  task_id ∉ later.*1 ->
  get_task_status task_id w = (Ok (Response record 200), w).
Proof.
  intros w Hwrites Hlater.
  assert (results_store w = replay_writes (store_writes w)) as Hreplay
    by (apply registry_is_replay; reflexivity).
  unfold get_task_status.
  rewrite Hreplay, Hwrites, (replay_writes_latest _ _ _ _ Hlater). reflexivity.
Qed.

Lemma status_returns_latest_record_witness :
  let dispatch p := Run (agent_returning "unused")
                      (Ok (PDict [("prompt", PStr p); ("async", PBool true)])) in
  let w := run_events CPython.py_repr CPython.json_dumps (initial_world 1700000000)
             [dispatch "first"; dispatch "second"; Construct 0; Construct 1;
              Tick 1700000001; Finish 0 (agent_returning "one");
              Tick 1700000002; Finish 0 (agent_failing (Exn "RuntimeError" "two"))] in
  get_task_status "task_1700000000000" w =
    (Ok (Response (PDict [("status", PStr "error"); ("error", PStr "two");
                          ("timestamp", PFloat 1700000002)]) 200), w).
Proof.
  intros dispatch w.
  apply (status_returns_latest_record CPython.py_repr CPython.json_dumps 1700000000
           _ "task_1700000000000" _
           [("task_1700000000000", completed_record "one" 1700000001)] []).
  - reflexivity.
  - apply not_elem_of_nil.
Defined.

Lemma step_no_finish py_repr json_dumps w ev :
  is_finish ev = false ->
  let w' := step py_repr json_dumps w ev in
  results_store w' = results_store w /\
  store_writes w' = store_writes w /\
  forall i j, threads w !! i = Some j ->
    exists running,
      threads w' !! i =
        Some (Job (job_task_id j) (job_prompt j) (job_model j) (job_started_at j) running).
Proof.
  assert (forall i j, threads w !! i = Some j ->
            exists running,
              threads w !! i =
                Some (Job (job_task_id j) (job_prompt j) (job_model j) (job_started_at j)
                        running)) as Hsame
    by (intros i j Hj; exists (job_running j); rewrite Hj; destruct j; reflexivity).
  destruct ev as [|agent get_json|task_id|agent get_json|i|i agent|t];
    cbn [step is_finish]; intros Hev; try discriminate.
  - cbn. repeat split. exact Hsame.
  - destruct (run_browser_automation_world agent get_json w) as (H1 & H2 & _ & H4).
    split; [exact H1|]. split; [exact H2|].
    destruct H4 as [-> | (p & m & ->)]; [exact Hsame|].
    intros i j Hj. destruct (Hsame i j Hj) as [running Hrunning]. exists running.
    rewrite lookup_app_l by (apply lookup_lt_Some in Hj; exact Hj). exact Hrunning.
  - unfold get_task_status. destruct (results_store w !! task_id);
      cbn; (repeat split; exact Hsame).
  - destruct (simple_browser_task_world py_repr json_dumps agent get_json w)
      as (H1 & H2 & _ & H4).
    rewrite H4. repeat split; [exact H1 | exact H2 | exact Hsame].
  - destruct (construct_thread_world i w) as (H1 & H2 & _ & H4).
    split; [exact H1|]. split; [exact H2|].
    destruct H4 as [-> | (j' & Hj' & _ & -> & _)]; [exact Hsame|].
    intros i' j Hj. destruct (decide (i = i')) as [<-|Hne].
    + exists true. rewrite list_lookup_insert_eq by (apply lookup_lt_Some in Hj; exact Hj).
      congruence.
    + rewrite list_lookup_insert_ne by exact Hne. apply Hsame. exact Hj.
  - cbn. repeat split. exact Hsame.
Qed.

Lemma run_events_no_finish py_repr json_dumps evs w :
  existsb is_finish evs = false ->
  let w' := run_events py_repr json_dumps w evs in
  results_store w' = results_store w /\
  store_writes w' = store_writes w /\
  forall i j, threads w !! i = Some j ->
    exists running,
      threads w' !! i =
        Some (Job (job_task_id j) (job_prompt j) (job_model j) (job_started_at j) running).
Proof.
  revert w. induction evs as [|ev evs IH]; intros w Hevs.
  - cbn. repeat split. intros i j Hj. exists (job_running j). rewrite Hj.
    destruct j; reflexivity.
  - cbn [existsb] in Hevs. apply orb_false_elim in Hevs as [Hev Hevs].
    cbn [run_events foldl].
    destruct (step_no_finish py_repr json_dumps w ev Hev) as (H1 & H2 & H4).
    destruct (IH (step py_repr json_dumps w ev) Hevs) as (H1' & H2' & H4').
    unfold run_events in *.
    rewrite H1', H2', H1, H2. repeat split.
    intros i j Hj. destruct (H4 i j Hj) as [running1 Hj1].
    destruct (H4' i _ Hj1) as [running2 Hj2]. exists running2. exact Hj2.
Qed.

(** X8: the registry only grows, and only through threads that finish.
    Over any sequence of events an id that has a record keeps having one and
    the assignments made so far stay in the log; a sequence in which no
    thread finishes (requests to any of the four routes, time passing)
    leaves the registry exactly as it was. *)
Theorem registry_only_grows
    (py_repr json_dumps : pyval -> string) (evs : list event) (w : world) :
  let w' := run_events py_repr json_dumps w evs in
  (forall task_id, is_Some (results_store w !! task_id) ->
                   is_Some (results_store w' !! task_id)) /\
  (exists more, store_writes w' = store_writes w ++ more) /\
  (existsb is_finish evs = false -> results_store w' = results_store w).
Proof.
  cbv zeta. split; [|split].
  - revert w. induction evs as [|ev evs IH]; intros w k Hk; [exact Hk|].
    cbn [run_events foldl]. apply IH.
    destruct (step_shape py_repr json_dumps w ev)
      as [[Hstore _] | (i & agent & j & record & _ & _ & _ & Hstore & _)].
    + rewrite Hstore. exact Hk.
    + rewrite Hstore, lookup_insert. case_decide; [eauto | exact Hk].
  - revert w. induction evs as [|ev evs IH]; intros w.
    + exists []. symmetry. apply app_nil_r.
    + cbn [run_events foldl]. destruct (IH (step py_repr json_dumps w ev)) as [more Hmore].
      unfold run_events in Hmore. rewrite Hmore.
      destruct (step_shape py_repr json_dumps w ev)
        as [[_ Hwrites] | (i & agent & j & record & _ & _ & _ & _ & Hwrites)];
        rewrite Hwrites; [eauto|].
      rewrite <- app_assoc. eauto.
  - intros Hevs. apply (run_events_no_finish py_repr json_dumps evs w Hevs).
Qed.

Lemma registry_only_grows_witness :
  let w := snd (store_set "task_1" (completed_record "ok" 5) (initial_world 10)) in
  let evs := [Run (agent_returning "r") (Ok (PDict [("prompt", PStr "p")]));
              Simple (agent_returning "s")
                (Ok (PDict [("action", PStr "search"); ("target", PStr "cats")]));
              Status "task_1"; Health; Tick 17] in
  results_store (run_events CPython.py_repr CPython.json_dumps w evs) = results_store w.
Proof.
  intros w evs.
  apply (proj2 (proj2 (registry_only_grows CPython.py_repr CPython.json_dumps evs w))).
  reflexivity.
Defined.

Lemma stamped_between_later lo hi hi' r :
  (hi <= hi')%Q -> stamped_between lo hi r -> stamped_between lo hi' r.
Proof.
  intros Hle (text & t & [Hlo Hhi] & Hr). exists text, t.
  split; [|exact Hr]. split; [exact Hlo | eapply Qle_trans; eassumption].
Qed.

(** X9: while the clock is never set back, every record in the registry
    carries a timestamp taken between the reading at which the process
    started and the current one: no record is stamped in the future, and none
    before the start. *)
Theorem timestamps_between_start_and_now
    (py_repr json_dumps : pyval -> string) (t0 : Q) (evs : list event)
    (task_id : string) (record : pyval) :
  let w := run_events py_repr json_dumps (initial_world t0) evs in
  clock_never_back t0 evs ->
  results_store w !! task_id = Some record ->
  (t0 <= now w)%Q /\
  exists text t,
    (t0 <= t <= now w)%Q /\
    (record = PDict [("status", PStr "completed"); ("result", PStr text);
                     ("timestamp", PFloat t)] \/
     record = PDict [("status", PStr "error"); ("error", PStr text);
                     ("timestamp", PFloat t)]).
Proof.
  intros w Hclock.
  assert (forall w0, (t0 <= now w0)%Q -> clock_never_back (now w0) evs ->
            (forall k r, results_store w0 !! k = Some r -> stamped_between t0 (now w0) r) ->
            let w1 := run_events py_repr json_dumps w0 evs in
            (t0 <= now w1)%Q /\
            forall k r, results_store w1 !! k = Some r -> stamped_between t0 (now w1) r)
    as Hgen.
  { clear. induction evs as [|ev evs IH]; intros w0 Hnow Hclock Hall; [split; assumption|].
    cbn [run_events foldl].
    assert (clock_never_back (now (step py_repr json_dumps w0 ev)) evs /\
            (now w0 <= now (step py_repr json_dumps w0 ev))%Q) as [Hclock' Hle].
    { rewrite step_now. destruct ev; cbn [clock_never_back] in Hclock;
        try (split; [exact Hclock | apply Qle_refl]).
      destruct Hclock as [Hle Hclock]. split; assumption. }
    apply IH; [eapply Qle_trans; eassumption | exact Hclock' |].
    intros k r.
    destruct (step_shape py_repr json_dumps w0 ev)
      as [[Hstore _] | (i & agent & j & record & _ & _ & Hrecord & Hstore & _)];
      rewrite Hstore.
    - intros H. apply (stamped_between_later t0 (now w0)); [exact Hle | exact (Hall _ _ H)].
    - rewrite lookup_insert. case_decide as Hk.
      + intros [= <-]. apply (stamped_between_later t0 (now w0)); [exact Hle|].
        destruct (agent _) as [text|e|e]; cbn [record_of] in Hrecord;
          try discriminate; injection Hrecord as <-.
        * exists text, (now w0). split; [split; [exact Hnow | apply Qle_refl]|].
          left. reflexivity.
        * exists (exn_text e), (now w0). split; [split; [exact Hnow | apply Qle_refl]|].
          right. reflexivity.
      + intros H. apply (stamped_between_later t0 (now w0)); [exact Hle | exact (Hall _ _ H)]. }
  destruct (Hgen (initial_world t0)) as [Hnow Hall].
  - apply Qle_refl.
  - exact Hclock.
  - intros k r H. cbn in H. rewrite lookup_empty in H. discriminate.
  - intros H. split; [exact Hnow | exact (Hall _ _ H)].
Qed.

Lemma timestamps_between_start_and_now_witness :
  let w := run_events CPython.py_repr CPython.json_dumps (initial_world 1700000000)
             [Run (agent_returning "unused")
                (Ok (PDict [("prompt", PStr "p"); ("async", PBool true)]));
              Construct 0;
              Tick 1700000002;
              Finish 0 (agent_returning "done");
              Tick 1700000003] in
  (1700000000 <= now w)%Q /\
  exists text t,
    (1700000000 <= t <= now w)%Q /\
    (completed_record "done" 1700000002 =
       PDict [("status", PStr "completed"); ("result", PStr text);
              ("timestamp", PFloat t)] \/
     completed_record "done" 1700000002 =
       PDict [("status", PStr "error"); ("error", PStr text);
              ("timestamp", PFloat t)]).
Proof.
  intros w.
  apply (timestamps_between_start_and_now CPython.py_repr CPython.json_dumps
           1700000000 _ "task_1700000000000").
  - cbn. repeat split; apply Qle_bool_imp_le; reflexivity.
  - vm_compute. reflexivity.
Defined.

(** ** Conversation logs *)

Lemma run_browser_automation_log agent get_json w :
  exists calls,
    agent_log (snd (run_browser_automation agent get_json w)) = agent_log w ++ calls /\
    Forall (fun c => save_conversation_path c = None) calls.
Proof.
  assert (forall c : agent_call, save_conversation_path c = None ->
            exists calls, agent_log w ++ [c] = agent_log w ++ calls /\
              Forall (fun c => save_conversation_path c = None) calls) as Hone
    by (intros c Hc; exists [c]; split; [reflexivity | apply Forall_singleton, Hc]).
  assert (exists calls, agent_log w = agent_log w ++ calls /\
            Forall (fun c => save_conversation_path c = None) calls) as Hnone
    by (exists []; split; [symmetry; apply app_nil_r | apply Forall_nil_2]).
  run_route. destruct get_json as [body|e|e]; [|exact Hnone..].
  destruct (py_truthy body); cbn [negb]; [|exact Hnone].
  destruct (py_contains "prompt" body) as [[|]| |]; cbn [negb]; try exact Hnone.
  destruct (py_getitem body "prompt"); try exact Hnone.
  destruct (py_get body "model" _); try exact Hnone.
  destruct (py_get body "async" _) as [flag| |]; try exact Hnone.
  destruct (py_truthy flag); [exact Hnone|].
  destruct (agent _); apply Hone; reflexivity.
Qed.

Lemma simple_browser_task_log py_repr json_dumps agent get_json w :
  exists calls,
    agent_log (snd (simple_browser_task py_repr json_dumps agent get_json w)) =
      agent_log w ++ calls /\
    Forall (fun c => save_conversation_path c = None) calls.
Proof.
  assert (forall c : agent_call, save_conversation_path c = None ->
            exists calls, agent_log w ++ [c] = agent_log w ++ calls /\
              Forall (fun c => save_conversation_path c = None) calls) as Hone
    by (intros c Hc; exists [c]; split; [reflexivity | apply Forall_singleton, Hc]).
  assert (exists calls, agent_log w = agent_log w ++ calls /\
            Forall (fun c => save_conversation_path c = None) calls) as Hnone
    by (exists []; split; [symmetry; apply app_nil_r | apply Forall_nil_2]).
  unfold simple_browser_task, try_except, bind, lift, ret, run_agent.
  destruct get_json as [body|e|e]; [|exact Hnone..].
  destruct (py_truthy body); cbn [negb]; [|exact Hnone].
  destruct (py_contains "action" body) as [[|]| |]; cbn [negb]; try exact Hnone.
  destruct (py_contains "target" body) as [[|]| |]; cbn [negb]; try exact Hnone.
  destruct (py_getitem body "action"); try exact Hnone.
  destruct (py_getitem body "target"); try exact Hnone.
  destruct (py_get body "data" _) as [extra| |]; try exact Hnone.
  destruct (py_get extra "element" _); try exact Hnone.
  destruct (str_dict_contains _ _) as [[|]| |]; cbn [negb]; try exact Hnone.
  destruct (str_dict_getitem _ _ _); try exact Hnone.
  destruct (agent _); apply Hone; reflexivity.
Qed.

Lemma omap_no_path calls :
  Forall (fun c => save_conversation_path c = None) calls ->
  omap save_conversation_path calls = [].
Proof.
  induction 1 as [|c calls Hc _ IH]; [reflexivity|].
  cbn [omap list_omap]. rewrite Hc. exact IH.
Qed.

Lemma filter_running_insert (l : list job) i j j' :
  l !! i = Some j -> job_running j = false -> job_running j' = true ->
  filter (fun j => job_running j = true) (<[i := j']> l) ≡ₚ
    j' :: filter (fun j => job_running j = true) l.
Proof.
  revert i. induction l as [|x l IH]; intros [|i] Hj Hnot Hrun; try discriminate.
  - injection Hj as ->. cbn [insert list_insert].
    rewrite !filter_cons. rewrite decide_True by exact Hrun.
    rewrite decide_False by congruence. reflexivity.
  - cbn [insert list_insert]. rewrite !filter_cons.
    destruct (decide (job_running x = true)).
    + rewrite (IH i Hj Hnot Hrun). apply Permutation_swap.
    + apply (IH i Hj Hnot Hrun).
Qed.

Lemma filter_running_delete (l : list job) i j :
  l !! i = Some j ->
  filter (fun j => job_running j = true) l ≡ₚ
    (if job_running j then [j] else []) ++
    filter (fun j => job_running j = true) (delete i l).
Proof.
  revert i. induction l as [|x l IH]; intros [|i] Hj; try discriminate.
  - injection Hj as ->. cbn [delete list_delete]. rewrite filter_cons.
    destruct (job_running j) eqn:Hrun.
    + rewrite decide_True by reflexivity. reflexivity.
    + rewrite decide_False by discriminate. reflexivity.
  - cbn [delete list_delete]. rewrite !filter_cons.
    destruct (decide (job_running x = true)).
    + rewrite (IH i Hj). apply Permutation_middle.
    + apply (IH i Hj).
Qed.

(** X10: in any state the process can reach, every record assigned to the
    registry and every thread that is inside [agent.run()] has an agent of
    its own that was handed "./conversations/<task_id>.json": counted with
    repetitions, the paths of the assigned records and of the running threads
    are among the conversation paths handed to the agents constructed so
    far.  The agents that /browser/run and /browser/simple run inline are
    handed none. *)
Theorem conversation_logs_match_registry_writes
    (py_repr json_dumps : pyval -> string) (t0 : Q) (evs : list event) :
  let w := run_events py_repr json_dumps (initial_world t0) evs in
  ((fun kv => "./conversations/" +:+ kv.1 +:+ ".json") <$> store_writes w) ++
  ((fun j => "./conversations/" +:+ job_task_id j +:+ ".json") <$>
     filter (fun j => job_running j = true) (threads w))
    ⊆+ omap save_conversation_path (agent_log w) /\
  (forall agent get_json w0,
     (exists calls,
        agent_log (snd (run_browser_automation agent get_json w0)) = agent_log w0 ++ calls /\
        Forall (fun c => save_conversation_path c = None) calls) /\
     (exists calls,
        agent_log (snd (simple_browser_task py_repr json_dumps agent get_json w0)) =
          agent_log w0 ++ calls /\
        Forall (fun c => save_conversation_path c = None) calls)).
Proof.
  cbv zeta. split;
    [|intros agent get_json w0; split;
      [apply run_browser_automation_log | apply simple_browser_task_log]].
  set (path := fun task_id : string => "./conversations/" +:+ task_id +:+ ".json").
  change (fun kv : string * pyval => "./conversations/" +:+ kv.1 +:+ ".json")
    with (fun kv : string * pyval => path kv.1).
  change (fun j : job => "./conversations/" +:+ job_task_id j +:+ ".json")
    with (fun j : job => path (job_task_id j)).
  induction evs as [|ev evs IH] using rev_ind; [reflexivity|].
  rewrite run_events_snoc.
  set (w := run_events py_repr json_dumps (initial_world t0) evs) in *.
  destruct ev as [|agent get_json|task_id|agent get_json|i|i agent|t]; cbn [step].
  - exact IH.
  - destruct (run_browser_automation_world agent get_json w) as (_ & -> & _ & Hthreads).
    destruct (run_browser_automation_log agent get_json w) as (calls & -> & Hcalls).
    rewrite omap_app, (omap_no_path calls Hcalls), app_nil_r.
    destruct Hthreads as [-> | (p & m & ->)]; [exact IH|].
    rewrite filter_app, filter_cons, decide_False by discriminate.
    rewrite filter_nil, app_nil_r. exact IH.
  - unfold get_task_status. destruct (results_store w !! task_id); exact IH.
  - destruct (simple_browser_task_world py_repr json_dumps agent get_json w)
      as (_ & -> & _ & ->).
    destruct (simple_browser_task_log py_repr json_dumps agent get_json w)
      as (calls & -> & Hcalls).
    rewrite omap_app, (omap_no_path calls Hcalls), app_nil_r. exact IH.
  - destruct (construct_thread_world i w)
      as (_ & Hwrites & _ & [-> | (j & Hj & Hnot & Hthreads & Hlog)]); [exact IH|].
    rewrite Hwrites, Hthreads, Hlog, omap_app.
    rewrite (filter_running_insert (threads w) i j
               (Job (job_task_id j) (job_prompt j) (job_model j) (job_started_at j) true)
               Hj Hnot eq_refl).
    cbn [fmap list_fmap omap list_omap browser_task_call save_conversation_path
         job_task_id].
    fold (path (job_task_id j)).
    match goal with
    | |- ?W ++ ?p :: ?R ⊆+ ?A ++ [?p] =>
        rewrite <- (Permutation_middle W R p), <- (Permutation_cons_append A p)
    end.
    apply submseteq_skip. exact IH.
  - destruct (threads w !! i) as [j|] eqn:Hj;
      [|rewrite (finish_thread_none i agent w Hj); exact IH].
    destruct (finish_thread_world i agent w j Hj) as (_ & -> & -> & _ & ->).
    rewrite (filter_running_delete (threads w) i j Hj) in IH.
    rewrite omap_app, fmap_app.
    set (W := (fun kv : string * pyval => path kv.1) <$> store_writes w) in *.
    set (R := (fun j0 : job => path (job_task_id j0)) <$>
                filter (fun j0 : job => job_running j0 = true) (delete i (threads w))) in *.
    set (A := omap save_conversation_path (agent_log w)) in *.
    set (N := (fun kv : string * pyval => path kv.1) <$>
                match record_of
                        (agent (browser_task_call (job_task_id j) (job_prompt j)
                                  (job_model j))) (now w) with
                | Some record => [(job_task_id j, record)]
                | None => []
                end).
    assert (N ⊆+ [path (job_task_id j)]) as HN
      by (subst N; destruct (record_of _ _); [reflexivity | apply submseteq_nil_l]).
    rewrite fmap_app in IH. fold R in IH.
    destruct (job_running j); cbn [fmap list_fmap omap list_omap app] in IH |- *.
    + rewrite app_nil_r. etrans; [|exact IH].
      rewrite <- app_assoc. apply submseteq_app; [reflexivity|].
      apply (submseteq_app N [path (job_task_id j)] R R HN). reflexivity.
    + rewrite <- app_assoc, (Permutation_app_comm N R), app_assoc.
      apply submseteq_app; [exact IH | exact HN].
  - exact IH.
Qed.

(** ** From dispatch to status *)

Lemma clock_never_back_now py_repr json_dumps evs w :
  clock_never_back (now w) evs ->
  (now w <= now (run_events py_repr json_dumps w evs))%Q.
Proof.
  revert w. induction evs as [|ev evs IH]; intros w Hclock; [apply Qle_refl|].
  cbn [run_events foldl].
  assert (clock_never_back (now (step py_repr json_dumps w ev)) evs /\
          (now w <= now (step py_repr json_dumps w ev))%Q) as [Hclock' Hle].
  { rewrite step_now. destruct ev; cbn [clock_never_back] in Hclock;
      try (split; [exact Hclock | apply Qle_refl]).
    destruct Hclock as [Hle Hclock]. split; assumption. }
  eapply Qle_trans; [exact Hle | apply (IH _ Hclock')].
Qed.

(** X11: the task id that an asynchronous /browser/run answers with is the
    id under which the outcome is found later.  After the dispatch, whatever
    requests arrive, whatever the clock shows and whether or not the thread
    has constructed its agent yet, while no thread finishes the started
    thread stays at the position it was given and a status lookup for the
    answered id answers as it did before the dispatch.  Once the thread comes
    to its end, the lookup gives 200 with the record of that run when the
    agent, handed the prompt, the model and
    "./conversations/<task_id>.json", returned or raised an instance of
    [Exception]; the record is stamped with the reading of the clock at the
    end, which is not earlier than the dispatch provided the clock was not
    set back in between.  When the agent raised an exception that does not
    derive from [Exception], the lookup still answers as before the
    dispatch. *)
Theorem dispatch_then_finish_then_lookup
    (py_repr json_dumps : pyval -> string)
    (dispatcher agent : agent_behaviour) (fields : list (string * pyval))
    (prompt : pyval) (evs : list event) (w : world) :
  dict_lookup "prompt" fields = Some prompt ->
  py_truthy (default (PBool false) (dict_lookup "async" fields)) = true ->
  existsb is_finish evs = false ->
  let task_id := make_task_id (now w) in
  let w1 := step py_repr json_dumps w (Run dispatcher (Ok (PDict fields))) in
  let w2 := run_events py_repr json_dumps w1 evs in
  let w3 := step py_repr json_dumps w2 (Finish (length (threads w)) agent) in
  let call := {| task := prompt;
                 llm := default (PStr "gpt-4o-mini") (dict_lookup "model" fields);
                 use_vision := true;
                 save_conversation_path :=
                   Some ("./conversations/" +:+ task_id +:+ ".json") |} in
  fst (get_task_status task_id w2) = fst (get_task_status task_id w) /\
  (forall text, agent call = Ok text ->
     get_task_status task_id w3 =
       (Ok (Response (PDict [("status", PStr "completed"); ("result", PStr text);
                             ("timestamp", PFloat (now w2))]) 200), w3)) /\
  (forall e, agent call = Raise e ->
     get_task_status task_id w3 =
       (Ok (Response (PDict [("status", PStr "error"); ("error", PStr (exn_text e));
                             ("timestamp", PFloat (now w2))]) 200), w3)) /\
  (forall e, agent call = RaiseBase e ->
     fst (get_task_status task_id w3) = fst (get_task_status task_id w)) /\
  (clock_never_back (now w) evs -> (now w <= now w2)%Q).
Proof.
  intros Hprompt Hasync Hevs task_id w1 w2 w3 call.
  assert (results_store w1 = results_store w /\ now w1 = now w /\
          threads w1 = threads w ++
            [Job task_id prompt
               (default (PStr "gpt-4o-mini") (dict_lookup "model" fields)) (now w) false])
    as (Hstore1 & Hnow1 & Hthreads1).
  { subst w1. cbn [step]. run_route.
    rewrite (dict_lookup_truthy _ _ _ Hprompt), (py_contains_dict _ _ _ Hprompt),
      (py_getitem_dict _ _ _ Hprompt).
    cbn [negb py_get]. rewrite Hasync. repeat split. }
  destruct (run_events_no_finish py_repr json_dumps evs w1 Hevs)
    as (Hstore2 & _ & Hthreads2).
  fold w2 in Hstore2, Hthreads2.
  destruct (Hthreads2 (length (threads w))
              (Job task_id prompt
                 (default (PStr "gpt-4o-mini") (dict_lookup "model" fields)) (now w) false))
    as [running Hjob].
  { rewrite Hthreads1, lookup_app_r by lia. rewrite Nat.sub_diag. reflexivity. }
  cbn [job_task_id job_prompt job_model job_started_at] in Hjob.
  destruct (finish_thread_world (length (threads w)) agent w2 _ Hjob)
    as (_ & _ & _ & Hstore3 & _).
  cbn [job_task_id job_prompt job_model] in Hstore3.
  change (browser_task_call task_id prompt
            (default (PStr "gpt-4o-mini") (dict_lookup "model" fields)))
    with call in Hstore3.
  change (finish_thread (length (threads w)) agent w2) with w3 in Hstore3.
  split; [|split; [|split; [|split]]].
  - unfold get_task_status. rewrite Hstore2, Hstore1.
    destruct (results_store w !! task_id); reflexivity.
  - intros text Hagent. rewrite Hagent in Hstore3. cbn [record_of] in Hstore3.
    unfold get_task_status. rewrite Hstore3, lookup_insert_eq. reflexivity.
  - intros e Hagent. rewrite Hagent in Hstore3. cbn [record_of] in Hstore3.
    unfold get_task_status. rewrite Hstore3, lookup_insert_eq. reflexivity.
  - intros e Hagent. rewrite Hagent in Hstore3. cbn [record_of] in Hstore3.
    unfold get_task_status. rewrite Hstore3, Hstore2, Hstore1.
    destruct (results_store w !! task_id); reflexivity.
  - intros Hclock. rewrite <- Hnow1. apply clock_never_back_now.
    rewrite Hnow1. exact Hclock.
Qed.

Lemma dispatch_then_finish_then_lookup_witness :
  let fields := [("prompt", PStr "open example.com"); ("async", PBool true);
                 ("model", PStr "gpt-4o")] in
  let w := initial_world (1782579200129453 # 1048576) in
  let evs := [Status "task_1700000000123"; Construct 0; Tick 1700000002;
              Run (agent_returning "other") (Ok (PDict [("prompt", PStr "q")]))] in
  let w3 := run_events CPython.py_repr CPython.json_dumps w
              (Run (agent_returning "unused") (Ok (PDict fields)) :: evs ++
               [Finish 0 (agent_returning "done")]) in
  get_task_status "task_1700000000123" w3 =
    (Ok (Response (PDict [("status", PStr "completed"); ("result", PStr "done");
                          ("timestamp", PFloat 1700000002)]) 200), w3).
Proof.
  intros fields w evs w3.
  apply (proj1 (proj2 (dispatch_then_finish_then_lookup CPython.py_repr CPython.json_dumps
           (agent_returning "unused") (agent_returning "done") fields
           (PStr "open example.com") evs w eq_refl eq_refl eq_refl)) "done").
  reflexivity.
Defined.

(** ** Where task ids come from *)




(** ** The agents the service constructs *)


